(** * ShopHub storefront: cart and order data-access layer

    A shallow embedding of the two data-access modules of the storefront
    (the cart module and the orders module) over an explicit model of
    their environment: the browser's [localStorage], the platform's
    random source, and the hosted relational store reached through the
    query builder.  Every query-builder call is one request to the store;
    it resolves to a [{ data, error }] response and never throws by
    itself, exactly as the client library does, so that the code's own
    [if (error) throw error] lines are visible in the model.  What the
    store decides by itself (row-level security, constraint checks,
    connectivity) appears only as a request that fails.

    Numbers: prices and totals are modelled as integers ([Z]) counted in
    the minor currency unit (the schema keeps them as [numeric(10, 2)]);
    quantities are integers. *)

From stdpp Require Import base numbers strings list gmap.
From Stdlib Require Import ZArith Ascii Sorted.

Local Open Scope Z_scope.

(** ** Data model (the interfaces of [types/index.ts]) *)

Module Product.
Record t : Type := mk {
  id : string;
  category_id : option string;
  name : string;
  description : string;
  price : Z;
  image_url : string;
  stock : Z;
  created_at : N
}.
End Product.

Module CartItem.
Record t : Type := mk {
  id : string;
  user_id : option string;
  session_id : option string;
  product_id : string;
  quantity : Z;
  created_at : N;
  product : option Product.t
}.
End CartItem.

Inductive OrderStatus : Type := pending | completed | cancelled.

Module Order.
Record t : Type := mk {
  id : string;
  user_id : option string;
  session_id : option string;
  total_amount : Z;
  status : OrderStatus;
  customer_email : string;
  customer_name : string;
  shipping_address : string;
  created_at : N
}.
End Order.

Module OrderItem.
Record t : Type := mk {
  id : string;
  order_id : string;
  product_id : string;
  quantity : Z;
  price : Z;
  created_at : N;
  product : option Product.t
}.
End OrderItem.

(** The [OrderData] interface of the orders module. *)
Module OrderData.
Record t : Type := mk {
  customer_name : string;
  customer_email : string;
  shipping_address : string
}.
End OrderData.

(** ** Errors and outcomes *)

(** The error object carried in a failed response of the store. *)
Record PostgrestError : Type := mkError {
  code : string;
  message : string
}.

(** What a JavaScript [throw] can carry here: a store error re-thrown by
    the code, or the runtime's [TypeError] on a property access on
    [null]. *)
Inductive Exn : Type :=
  | StoreError (e : PostgrestError)
  | TypeError (what : string).

Inductive Outcome (A : Type) : Type :=
  | Returned (a : A)
  | Thrown (x : Exn).
Arguments Returned {A} a.
Arguments Thrown {A} x.

(** The [{ data, error }] object every request resolves to. *)
Record Response (A : Type) : Type := mkResponse {
  data : option A;
  error : option PostgrestError
}.
Arguments mkResponse {A} data error.
Arguments data {A} r.
Arguments error {A} r.

(** ** The environment *)

Record Db : Type := mkDb {
  products : list Product.t;
  cart_items : list CartItem.t;
  orders : list Order.t;
  order_items : list OrderItem.t
}.

(** [localStorage] is a string-keyed map; [writes] logs every [setItem];
    [entropy]/[drawn] is the random source behind [crypto.randomUUID] and
    the store's [gen_random_uuid()]; [clock] is the store's [now()];
    [faults] schedules the outcome of the coming requests to the store
    ([Some e]: the request fails with [e] and changes nothing; [None], or
    an exhausted schedule: the request is carried out). *)
Record World : Type := mkWorld {
  localStorage : gmap string string;
  writes : list (string * string);
  entropy : nat -> N;
  drawn : nat;
  clock : N;
  db : Db;
  faults : list (option PostgrestError)
}.

Definition with_localStorage (ls : gmap string string) (wr : list (string * string))
    (w : World) : World :=
  mkWorld ls wr (entropy w) (drawn w) (clock w) (db w) (faults w).

Definition with_drawn (n : nat) (w : World) : World :=
  mkWorld (localStorage w) (writes w) (entropy w) n (clock w) (db w) (faults w).

Definition with_clock (c : N) (w : World) : World :=
  mkWorld (localStorage w) (writes w) (entropy w) (drawn w) c (db w) (faults w).

Definition with_db (d : Db) (w : World) : World :=
  mkWorld (localStorage w) (writes w) (entropy w) (drawn w) (clock w) d (faults w).

Definition with_faults (f : list (option PostgrestError)) (w : World) : World :=
  mkWorld (localStorage w) (writes w) (entropy w) (drawn w) (clock w) (db w) f.

Definition with_products (l : list Product.t) (d : Db) : Db :=
  mkDb l (cart_items d) (orders d) (order_items d).

Definition with_cart_items (l : list CartItem.t) (d : Db) : Db :=
  mkDb (products d) l (orders d) (order_items d).

Definition with_orders (l : list Order.t) (d : Db) : Db :=
  mkDb (products d) (cart_items d) l (order_items d).

Definition with_order_items (l : list OrderItem.t) (d : Db) : Db :=
  mkDb (products d) (cart_items d) (orders d) l.

(** ** Computations: state passing with exceptions *)

Definition Async (A : Type) : Type := World -> Outcome A * World.

Definition ret {A} (a : A) : Async A := fun w => (Returned a, w).

Definition throw {A} (x : Exn) : Async A := fun w => (Thrown x, w).

Definition bind {A B} (m : Async A) (k : A -> Async B) : Async B :=
  fun w =>
    match m w with
    | (Returned a, w') => k a w'
    | (Thrown x, w') => (Thrown x, w')
    end.

(** A synchronous, non-throwing step. *)
Definition sync {A} (f : World -> A * World) : Async A :=
  fun w => let '(a, w') := f w in (Returned a, w').

Notation "x <-- m ;; k" := (bind m (fun x => k))
  (at level 100, m at next level, right associativity,
   format "'[v' x  <--  m  ;;  '/' k ']'").

(** ** Platform functions *)

(** JavaScript truthiness of a [string | null]: the value when it is
    truthy ([null] and the empty string are falsy). *)
Definition truthy (v : option string) : option string :=
  match v with
  | Some s => if decide (s = "") then None else Some s
  | None => None
  end.

(** [x || 0] on a [number | undefined]. *)
Definition or_zero (v : option Z) : Z :=
  match v with
  | Some x => if decide (x = 0) then 0 else x
  | None => 0
  end.

Definition getItem (key : string) (w : World) : option string :=
  localStorage w !! key.

Definition setItem (key value : string) (w : World) : World :=
  with_localStorage (<[key := value]> (localStorage w)) (writes w ++ [(key, value)]) w.

Definition hex_digit (n : N) : ascii :=
  nth (N.to_nat (n mod 16)) (String.list_ascii_of_string "0123456789abcdef") "0"%char.

Fixpoint hex (digits : nat) (n : N) : string :=
  match digits with
  | O => ""
  | S k => hex k (n / 16) +:+ String (hex_digit n) ""
  end.

(** A version-4 UUID rendered from 128 bits of the random source:
    [xxxxxxxx-xxxx-4xxx-yxxx-xxxxxxxxxxxx]. *)
Definition uuid_of_bits (bits : N) : string :=
  let field (from width : N) := N.land (N.shiftr bits from) (N.ones width) in
  (hex 8 (field 96 32) +:+ "-" +:+
   hex 4 (field 80 16) +:+ "-" +:+
   hex 4 (N.lor 0x4000 (field 64 12)) +:+ "-" +:+
   hex 4 (N.lor 0x8000 (field 48 14)) +:+ "-" +:+
   hex 12 (field 0 48))%N.

(** [crypto.randomUUID()], also standing for the store's
    [gen_random_uuid()] column default. *)
Definition randomUUID (w : World) : string * World :=
  (uuid_of_bits (entropy w (drawn w)), with_drawn (S (drawn w)) w).

(** ** Requests to the store *)

Definition failed {A} (e : PostgrestError) : Response A := mkResponse None (Some e).

(** One round trip: the schedule decides whether it reaches the store. *)
Definition request {A} (op : World -> Response A * World) : Async (Response A) :=
  fun w =>
    match faults w with
    | Some e :: rest => (Returned (failed e), with_faults rest w)
    | None :: rest => let '(r, w') := op (with_faults rest w) in (Returned r, w')
    | [] => let '(r, w') := op w in (Returned r, w')
    end.

(** The error of [.maybeSingle()] when the filter matches several rows. *)
Definition PGRST116 : PostgrestError :=
  mkError "PGRST116" "JSON object requested, multiple (or no) rows returned".

(** [.maybeSingle()]: no row is [data: null] without an error. *)
Definition maybeSingle {A} (rows : list A) : Response A :=
  match rows with
  | [] => mkResponse None None
  | [r] => mkResponse (Some r) None
  | _ => failed PGRST116
  end.

Definition lookup_product (pid : string) (d : Db) : option Product.t :=
  find (fun p => bool_decide (Product.id p = pid)) (products d).

(** The embedded resource [product:products(star)] of a select. *)
Definition join_cart_product (d : Db) (c : CartItem.t) : CartItem.t :=
  CartItem.mk (CartItem.id c) (CartItem.user_id c) (CartItem.session_id c)
    (CartItem.product_id c) (CartItem.quantity c) (CartItem.created_at c)
    (lookup_product (CartItem.product_id c) d).

Definition join_order_product (d : Db) (i : OrderItem.t) : OrderItem.t :=
  OrderItem.mk (OrderItem.id i) (OrderItem.order_id i) (OrderItem.product_id i)
    (OrderItem.quantity i) (OrderItem.price i) (OrderItem.created_at i)
    (lookup_product (OrderItem.product_id i) d).

Definition set_quantity (q : Z) (c : CartItem.t) : CartItem.t :=
  CartItem.mk (CartItem.id c) (CartItem.user_id c) (CartItem.session_id c)
    (CartItem.product_id c) q (CartItem.created_at c) (CartItem.product c).

(** The effect of [update({ quantity }).eq('id', id)] on one row. *)
Definition requantify (id : string) (q : Z) (c : CartItem.t) : CartItem.t :=
  if decide (CartItem.id c = id) then set_quantity q c else c.

(** Rows of [cart_items] matched by the filters the code uses. *)
Definition cart_of_session (sessionId : string) (l : list CartItem.t) : list CartItem.t :=
  filter (fun c => CartItem.session_id c = Some sessionId) l.

Definition cart_lines (sessionId productId : string) (l : list CartItem.t) : list CartItem.t :=
  filter (fun c => CartItem.product_id c = productId) (cart_of_session sessionId l).

(** ** The cart module *)

Module Cart.

(** [from('cart_items').select(..., product:products(..)).eq('session_id', s)] *)
Definition select_items (sessionId : string) (w : World)
    : Response (list CartItem.t) * World :=
  (mkResponse
     (Some (map (join_cart_product (db w)) (cart_of_session sessionId (cart_items (db w)))))
     None, w).

(** [select.eq('session_id', s).eq('product_id', p).maybeSingle()] *)
Definition select_line (sessionId productId : string) (w : World)
    : Response CartItem.t * World :=
  (maybeSingle (cart_lines sessionId productId (cart_items (db w))), w).

(** [update({ quantity }).eq('id', id)] *)
Definition update_quantity (id : string) (q : Z) (w : World) : Response unit * World :=
  (mkResponse None None,
   with_db (with_cart_items (map (requantify id q) (cart_items (db w))) (db w)) w).

(** [insert({ session_id, product_id, quantity })]: the store fills in
    the column defaults ([id], [created_at]) and leaves [user_id] null. *)
Definition insert_line (sessionId productId : string) (q : Z) (w : World)
    : Response unit * World :=
  let '(id, w1) := randomUUID w in
  let row := CartItem.mk id None (Some sessionId) productId q (clock w1) None in
  (mkResponse None None,
   with_clock (N.succ (clock w1))
     (with_db (with_cart_items (cart_items (db w1) ++ [row]) (db w1)) w1)).

(** [delete().eq('id', id)] *)
Definition delete_by_id (id : string) (w : World) : Response unit * World :=
  (mkResponse None None,
   with_db (with_cart_items (filter (fun c => CartItem.id c <> id) (cart_items (db w)))
              (db w)) w).

(** [delete().eq('session_id', s)] *)
Definition delete_by_session (sessionId : string) (w : World) : Response unit * World :=
  (mkResponse None None,
   with_db (with_cart_items
              (filter (fun c => CartItem.session_id c <> Some sessionId) (cart_items (db w)))
              (db w)) w).

Definition getSessionId (w : World) : string * World :=
  match truthy (getItem "session_id" w) with
  | Some sessionId => (sessionId, w)
  | None =>
      let '(sessionId, w1) := randomUUID w in
      (sessionId, setItem "session_id" sessionId w1)
  end.

Definition getCartItems : Async (list CartItem.t) :=
  sessionId <-- sync getSessionId ;;
  r <-- request (select_items sessionId) ;;
  match error r with
  | Some e => throw (StoreError e)
  | None => ret (default [] (data r))
  end.

(** [quantity] defaults to 1 at the call sites that omit it. *)
Definition addToCart (productId : string) (quantity : Z) : Async unit :=
  sessionId <-- sync getSessionId ;;
  r <-- request (select_line sessionId productId) ;;
  match data r with
  | Some existingItem =>
      r1 <-- request (update_quantity (CartItem.id existingItem)
                        (CartItem.quantity existingItem + quantity)) ;;
      match error r1 with
      | Some e => throw (StoreError e)
      | None => ret tt
      end
  | None =>
      r1 <-- request (insert_line sessionId productId quantity) ;;
      match error r1 with
      | Some e => throw (StoreError e)
      | None => ret tt
      end
  end.

Definition removeFromCart (cartItemId : string) : Async unit :=
  r <-- request (delete_by_id cartItemId) ;;
  match error r with
  | Some e => throw (StoreError e)
  | None => ret tt
  end.

Definition updateCartItemQuantity (cartItemId : string) (quantity : Z) : Async unit :=
  if decide (quantity <= 0) then
    _ <-- removeFromCart cartItemId ;;
    ret tt
  else
    r <-- request (update_quantity cartItemId quantity) ;;
    match error r with
    | Some e => throw (StoreError e)
    | None => ret tt
    end.

Definition clearCart : Async unit :=
  sessionId <-- sync getSessionId ;;
  r <-- request (delete_by_session sessionId) ;;
  match error r with
  | Some e => throw (StoreError e)
  | None => ret tt
  end.

End Cart.

(** ** The orders module *)

Module Orders.

(** The payload of one row of the batch insert into [order_items]. *)
Record NewOrderItem : Type := mkNewOrderItem {
  order_id : string;
  product_id : string;
  quantity : Z;
  price : Z
}.

(** [insert({ session_id, total_amount, status, customer_... }).select().single()] *)
Definition insert_order (sessionId : string) (totalAmount : Z) (st : OrderStatus)
    (name email address : string) (w : World) : Response Order.t * World :=
  let '(id, w1) := randomUUID w in
  let row := Order.mk id None (Some sessionId) totalAmount st email name address (clock w1) in
  (mkResponse (Some row) None,
   with_clock (N.succ (clock w1))
     (with_db (with_orders (orders (db w1) ++ [row]) (db w1)) w1)).

Fixpoint fill_defaults (rows : list NewOrderItem) (w : World) : list OrderItem.t * World :=
  match rows with
  | [] => ([], w)
  | r :: rest =>
      let '(id, w1) := randomUUID w in
      let '(filled, w2) := fill_defaults rest w1 in
      (OrderItem.mk id (order_id r) (product_id r) (quantity r) (price r) (clock w) None
         :: filled, w2)
  end.

(** [from('order_items').insert(rows)] *)
Definition insert_items (rows : list NewOrderItem) (w : World) : Response unit * World :=
  let '(filled, w1) := fill_defaults rows w in
  (mkResponse None None,
   with_clock (N.succ (clock w1))
     (with_db (with_order_items (order_items (db w1) ++ filled) (db w1)) w1)).

(** Newest first: a stable insertion sort on [created_at], descending. *)
Fixpoint insert_desc (o : Order.t) (l : list Order.t) : list Order.t :=
  match l with
  | [] => [o]
  | x :: rest =>
      if (Order.created_at x <? Order.created_at o)%N then o :: l
      else x :: insert_desc o rest
  end.

Definition newest_first (l : list Order.t) : list Order.t :=
  foldr insert_desc [] l.

(** [select.eq('session_id', s).order('created_at', { ascending: false })] *)
Definition select_by_session (sessionId : string) (w : World)
    : Response (list Order.t) * World :=
  (mkResponse
     (Some (newest_first (filter (fun o => Order.session_id o = Some sessionId)
                            (orders (db w)))))
     None, w).

(** [select.eq('id', id).maybeSingle()] *)
Definition select_by_id (orderId : string) (w : World) : Response Order.t * World :=
  (maybeSingle (filter (fun o => Order.id o = orderId) (orders (db w))), w).

(** [from('order_items').select(..., product:products(..)).eq('order_id', id)] *)
Definition select_items (orderId : string) (w : World)
    : Response (list OrderItem.t) * World :=
  (mkResponse
     (Some (map (join_order_product (db w))
              (filter (fun i => OrderItem.order_id i = orderId) (order_items (db w)))))
     None, w).

Definition getSessionId (w : World) : string * World :=
  match truthy (getItem "session_id" w) with
  | Some sessionId => (sessionId, w)
  | None => randomUUID w
  end.

(** The reducer of [createOrder]: [sum + (item.product?.price || 0) * item.quantity]. *)
Definition add_line (sum : Z) (item : CartItem.t) : Z :=
  sum + or_zero (Product.price <$> CartItem.product item) * CartItem.quantity item.

Definition to_order_item (orderId : string) (item : CartItem.t) : NewOrderItem :=
  mkNewOrderItem orderId (CartItem.product_id item) (CartItem.quantity item)
    (or_zero (Product.price <$> CartItem.product item)).

(** [.single()] never resolves to [data: null] without an error; reading
    [order.id] from [null] is the runtime's [TypeError]. *)
Definition createOrder (cartItems : list CartItem.t) (orderData : OrderData.t)
    : Async Order.t :=
  sessionId <-- sync getSessionId ;;
  let totalAmount := fold_left add_line cartItems 0 in
  r <-- request (insert_order sessionId totalAmount pending
                   (OrderData.customer_name orderData)
                   (OrderData.customer_email orderData)
                   (OrderData.shipping_address orderData)) ;;
  match error r with
  | Some orderError => throw (StoreError orderError)
  | None =>
      match data r with
      | None => throw (TypeError "order is null")
      | Some order =>
          let orderItems := map (to_order_item (Order.id order)) cartItems in
          r1 <-- request (insert_items orderItems) ;;
          match error r1 with
          | Some itemsError => throw (StoreError itemsError)
          | None =>
              _ <-- Cart.clearCart ;;
              ret order
          end
      end
  end.

Definition getOrders : Async (list Order.t) :=
  sessionId <-- sync getSessionId ;;
  r <-- request (select_by_session sessionId) ;;
  match error r with
  | Some e => throw (StoreError e)
  | None => ret (default [] (data r))
  end.

(** The promise resolves to [data], which is [null] when no row matches. *)
Definition getOrderById (orderId : string) : Async (option Order.t) :=
  r <-- request (select_by_id orderId) ;;
  match error r with
  | Some e => throw (StoreError e)
  | None => ret (data r)
  end.

Definition getOrderItems (orderId : string) : Async (list OrderItem.t) :=
  r <-- request (select_items orderId) ;;
  match error r with
  | Some e => throw (StoreError e)
  | None => ret (default [] (data r))
  end.

End Orders.

(** ** Schedules of the store *)

(** The next [n] requests are all carried out. *)
Fixpoint no_fault (n : nat) (fs : list (option PostgrestError)) : Prop :=
  match n, fs with
  | O, _ => True
  | S _, [] => True
  | S k, None :: rest => no_fault k rest
  | S _, Some _ :: _ => False
  end.

(** The next [k] requests are carried out and the one after them fails
    with [e]. *)
Fixpoint fault_at (k : nat) (e : PostgrestError) (fs : list (option PostgrestError)) : Prop :=
  match k, fs with
  | O, Some e' :: _ => e' = e
  | S k', None :: rest => fault_at k' e rest
  | _, _ => False
  end.

(** The price snapshot of a cart line: the price of the product joined
    to it when the line was read, nothing for a line without a product. *)
Definition snapshot_price (item : CartItem.t) : Z :=
  match CartItem.product item with
  | Some p => Product.price p
  | None => 0
  end.

(** [Σ quantity_i × price_i] over the snapshots. *)
Definition snapshot_total (items : list CartItem.t) : Z :=
  foldr (fun item acc => CartItem.quantity item * snapshot_price item + acc) 0 items.

(** A run of [addToCart(p, q)] calls, one after the other. *)
Fixpoint add_each (productId : string) (qs : list Z) : Async unit :=
  match qs with
  | [] => ret tt
  | q :: rest => _ <-- Cart.addToCart productId q ;; add_each productId rest
  end.

Definition sum_Z (qs : list Z) : Z := foldr Z.add 0 qs.

(** The columns of an [order_items] row that [createOrder] supplies. *)
Definition item_row (i : OrderItem.t) : string * string * Z * Z :=
  (OrderItem.order_id i, OrderItem.product_id i, OrderItem.quantity i, OrderItem.price i).

(** A later change of the live [products] table. *)
Definition reprice (ps : list Product.t) (w : World) : World :=
  with_db (with_products ps (db w)) w.

(** A computation that neither reads nor writes the [products] table:
    it commutes with any change of that table. *)
Definition blind {A} (m : Async A) : Prop :=
  ∀ ps w, m (reprice ps w) = (fst (m w), reprice ps (snd (m w))).

(** Row [i] of a batch insert carried out in [w]. *)
Definition filled_row (w : World) (i : nat) (r : Orders.NewOrderItem) : OrderItem.t :=
  OrderItem.mk (uuid_of_bits (entropy w (i + drawn w)%nat)) (Orders.order_id r)
    (Orders.product_id r) (Orders.quantity r) (Orders.price r) (clock w) None.

(** ** Concrete scenarios *)

Definition seed (n : nat) : N :=
  (N.of_nat n * 0x9e3779b97f4a7c15f39cc0605cedc835 + 0x2545f4914f6cdd1d)%N.

(** A first visit: empty [localStorage], empty store, no outage. *)
Definition fresh_world : World :=
  mkWorld ∅ [] seed 0 0%N (mkDb [] [] [] []) [].

Definition network_error : PostgrestError := mkError "" "TypeError: Failed to fetch".

Definition headphones : Product.t :=
  Product.mk "P1" None "Wireless Headphones" "" 1000 "" 50 0%N.

Definition plant_pot : Product.t :=
  Product.mk "P2" None "Indoor Plant Pot" "" 500 "" 60 0%N.

Definition checkout_form : OrderData.t :=
  OrderData.mk "Ada" "ada@example.org" "1 Main Street".

(** Session [S] holds one line of product [P1]; another session holds one too. *)
Definition line_S : CartItem.t := CartItem.mk "c1" None (Some "S") "P1" 2 0%N None.
Definition line_T : CartItem.t := CartItem.mk "c2" None (Some "T") "P1" 5 1%N None.

Definition shop_world (fs : list (option PostgrestError)) : World :=
  mkWorld {["session_id" := "S"]} [] seed 0 2%N
    (mkDb [headphones; plant_pot] [line_S; line_T] [] []) fs.

(** The cart of session [S] as [getCartItems] returns it, with the joined products. *)
Definition cart_S : list CartItem.t :=
  [CartItem.mk "c1" None (Some "S") "P1" 3 0%N (Some headphones);
   CartItem.mk "c3" None (Some "S") "P2" 1 2%N (Some plant_pot)].

(** A store that already holds two placed orders. *)
Definition first_order : Order.t :=
  Order.mk "o1" None (Some "S") 3500 pending "ada@example.org" "Ada" "1 Main Street" 0%N.
Definition second_order : Order.t :=
  Order.mk "o2" None (Some "T") 500 pending "bob@example.org" "Bob" "2 Side Street" 1%N.

Definition archive_world : World :=
  mkWorld {["session_id" := "S"]} [] seed 0 2%N
    (mkDb [headphones; plant_pot] [] [first_order; second_order] []) [].

(** The checkout walk-through: a first visit to a shop with two products;
    two adds of [P1], one of [P2], the cart is read, the shop then empties
    its catalogue, and the order is placed from the cart as read. *)
Definition catalog_world : World :=
  mkWorld ∅ [] seed 0 0%N (mkDb [headphones; plant_pot] [] [] []) [].

Definition checkout_walk : Async Order.t :=
  _ <-- Cart.addToCart "P1" 2 ;;
  _ <-- Cart.addToCart "P1" 1 ;;
  _ <-- Cart.addToCart "P2" 1 ;;
  cart <-- Cart.getCartItems ;;
  _ <-- sync (fun w => (tt, reprice [] w)) ;;
  Orders.createOrder cart checkout_form.

(** A line whose product could not be joined. *)
Definition orphan_line : CartItem.t := CartItem.mk "c4" None (Some "S") "P9" 4 3%N None.

(** ** The application shell ([App]) and the cart panel *)

Module Category.
Record t : Type := mk {
  id : string;
  name : string;
  description : string;
  created_at : N
}.
End Category.

(** The cart panel component: its total and the wiring of its buttons. *)
Module CartPanel.

(** [cartItems.reduce((sum, item) => sum + (item.product?.price || 0) * item.quantity, 0)] *)
Definition total (cartItems : list CartItem.t) : Z :=
  fold_left (fun sum item =>
               sum + or_zero (Product.price <$> CartItem.product item) * CartItem.quantity item)
    cartItems 0.

(** The minus button: [onUpdateQuantity(item.id, item.quantity - 1)]. *)
Definition minus {T} (onUpdateQuantity : string -> Z -> T) (item : CartItem.t) : T :=
  onUpdateQuantity (CartItem.id item) (CartItem.quantity item - 1).

(** The plus button: [onUpdateQuantity(item.id, item.quantity + 1)]. *)
Definition plus {T} (onUpdateQuantity : string -> Z -> T) (item : CartItem.t) : T :=
  onUpdateQuantity (CartItem.id item) (CartItem.quantity item + 1).

(** The Remove button: [onRemoveItem(item.id)]. *)
Definition remove {T} (onRemoveItem : string -> T) (item : CartItem.t) : T :=
  onRemoveItem (CartItem.id item).

End CartPanel.

Module App.

(** The component's [useState] cells, with what it has sent to
    [window.alert] and [console.error]. *)
Record State : Type := mkState {
  categories : list Category.t;
  products : list Product.t;
  cartItems : list CartItem.t;
  selectedCategory : option string;
  isCartOpen : bool;
  isCheckoutOpen : bool;
  loading : bool;
  alerts : list string;
  errors : list (string * Exn)
}.

Definition setCartItems (l : list CartItem.t) (st : State) : State :=
  mkState (categories st) (products st) l (selectedCategory st) (isCartOpen st)
    (isCheckoutOpen st) (loading st) (alerts st) (errors st).

Definition setIsCartOpen (b : bool) (st : State) : State :=
  mkState (categories st) (products st) (cartItems st) (selectedCategory st) b
    (isCheckoutOpen st) (loading st) (alerts st) (errors st).

Definition setIsCheckoutOpen (b : bool) (st : State) : State :=
  mkState (categories st) (products st) (cartItems st) (selectedCategory st) (isCartOpen st)
    b (loading st) (alerts st) (errors st).

Definition alert (msg : string) (st : State) : State :=
  mkState (categories st) (products st) (cartItems st) (selectedCategory st) (isCartOpen st)
    (isCheckoutOpen st) (loading st) (alerts st ++ [msg]) (errors st).

Definition console_error (msg : string) (x : Exn) (st : State) : State :=
  mkState (categories st) (products st) (cartItems st) (selectedCategory st) (isCartOpen st)
    (isCheckoutOpen st) (loading st) (alerts st) (errors st ++ [(msg, x)]).

Definition handleAddToCart (productId : string) (st : State) (w : World) : State * World :=
  match (_ <-- Cart.addToCart productId 1 ;; Cart.getCartItems) w with
  | (Returned updatedCart, w') => (setCartItems updatedCart st, w')
  | (Thrown error, w') =>
      (alert "Failed to add item to cart" (console_error "Error adding to cart:" error st), w')
  end.

Definition handleUpdateQuantity (cartItemId : string) (quantity : Z) (st : State) (w : World)
    : State * World :=
  match (_ <-- Cart.updateCartItemQuantity cartItemId quantity ;; Cart.getCartItems) w with
  | (Returned updatedCart, w') => (setCartItems updatedCart st, w')
  | (Thrown error, w') => (console_error "Error updating quantity:" error st, w')
  end.

Definition handleRemoveItem (cartItemId : string) (st : State) (w : World) : State * World :=
  match (_ <-- Cart.removeFromCart cartItemId ;; Cart.getCartItems) w with
  | (Returned updatedCart, w') => (setCartItems updatedCart st, w')
  | (Thrown error, w') => (console_error "Error removing item:" error st, w')
  end.

Definition handleCheckout (orderData : OrderData.t) (st : State) (w : World) : State * World :=
  match Orders.createOrder (cartItems st) orderData w with
  | (Returned _, w') =>
      (alert "Order placed successfully!"
         (setIsCartOpen false (setIsCheckoutOpen false (setCartItems [] st))), w')
  | (Thrown error, w') =>
      (alert "Failed to place order" (console_error "Error creating order:" error st), w')
  end.

(** [cartItems.reduce((sum, item) => sum + item.quantity, 0)] *)
Definition cartCount (st : State) : Z :=
  fold_left (fun sum item => sum + CartItem.quantity item) (cartItems st) 0.

Definition cartTotal (st : State) : Z :=
  fold_left (fun sum item =>
               sum + or_zero (Product.price <$> CartItem.product item) * CartItem.quantity item)
    (cartItems st) 0.

End App.

(** ** The store handle ([lib/supabase]) *)

Module Supabase.

(** A client object; [serial] stands for its identity. *)
Record Client : Type := mkClient {
  supabaseUrl : string;
  supabaseAnonKey : string;
  serial : nat
}.

(** The module's variable [supabaseInstance], with the number of calls
    made to [createClient]. *)
Record Vars : Type := mkVars {
  supabaseInstance : option Client;
  created : nat
}.

Definition getSupabaseClient (url key : string) (v : Vars) : Client * Vars :=
  match supabaseInstance v with
  | Some instance => (instance, v)
  | None =>
      let instance := mkClient url key (created v) in
      (instance, mkVars (Some instance) (S (created v)))
  end.



End Supabase.

(** ** Row-level security (the policies of the migration) *)

Module Policy.

(** SQL's three-valued logic; [None] is NULL. *)
Definition sql_eq (a b : option string) : option bool :=
  match a, b with
  | Some x, Some y => Some (bool_decide (x = y))
  | _, _ => None
  end.

Definition sql_or (a b : option bool) : option bool :=
  match a, b with
  | Some true, _ | _, Some true => Some true
  | Some false, Some false => Some false
  | _, _ => None
  end.

Definition sql_and (a b : option bool) : option bool :=
  match a, b with
  | Some false, _ | _, Some false => Some false
  | Some true, Some true => Some true
  | _, _ => None
  end.

(** A row passes a policy when the expression is true (not false, not NULL). *)
Definition passes (v : option bool) : bool :=
  match v with
  | Some true => true
  | _ => false
  end.

(** What a request carries: the [session_id] claim of its JWT and [auth.uid()]. *)
Record Request : Type := mkRequest {
  claim_session_id : option string;
  uid : option string
}.

Inductive Command : Type := SELECT | INSERT | UPDATE | DELETE.

(** [session_id = claims->>'session_id' OR user_id = auth.uid()] on [cart_items]. *)
Definition owns_cart_item (rq : Request) (c : CartItem.t) : option bool :=
  sql_or (sql_eq (CartItem.session_id c) (claim_session_id rq))
         (sql_eq (CartItem.user_id c) (uid rq)).

Definition owns_order (rq : Request) (o : Order.t) : option bool :=
  sql_or (sql_eq (Order.session_id o) (claim_session_id rq))
         (sql_eq (Order.user_id o) (uid rq)).

(** The four policies of [cart_items]. *)
Definition cart_items_allows (cmd : Command) (rq : Request) (c : CartItem.t) : bool :=
  passes (owns_cart_item rq c).

(** [orders]: a SELECT policy on ownership, an INSERT policy [WITH CHECK
    (true)], nothing else (row-level security denies what no policy allows). *)
Definition orders_allows (cmd : Command) (rq : Request) (o : Order.t) : bool :=
  match cmd with
  | SELECT => passes (owns_order rq o)
  | INSERT => true
  | UPDATE | DELETE => false
  end.

(** [order_items]: one SELECT policy, [EXISTS (SELECT 1 FROM orders WHERE
    orders.id = order_items.order_id AND (owner))]. *)
Definition order_items_allows (cmd : Command) (rq : Request) (d : Db) (i : OrderItem.t)
    : bool :=
  match cmd with
  | SELECT =>
      existsb (fun o => passes (sql_and (sql_eq (Some (Order.id o)) (Some (OrderItem.order_id i)))
                                        (owns_order rq o)))
        (orders d)
  | INSERT | UPDATE | DELETE => false
  end.

End Policy.

(** Newest first. *)
Definition newer_or_same (a b : Order.t) : Prop :=
  (Order.created_at b <= Order.created_at a)%N.

(** The Order that the checkout of [cart_S] in [shop_world] places. *)
Definition placed_order : Order.t :=
  Order.mk (uuid_of_bits (seed 0)) None (Some "S") 3500 pending
    "ada@example.org" "Ada" "1 Main Street" 2%N.

(** The page of session [S] with its cart read and the checkout form open. *)
Definition checkout_page : App.State :=
  App.mkState [] [] cart_S None false true false [] [].

(** The page as it shows the stored cart of [shop_world]. *)
Definition cart_page : App.State :=
  App.mkState [] [] [join_cart_product (db (shop_world [])) line_S] None true false false [] [].

(** * Properties *)

Lemma or_zero_price item :
  or_zero (Product.price <$> CartItem.product item) = snapshot_price item.
Proof.
  unfold snapshot_price. destruct (CartItem.product item) as [p|]; simpl; [|done].
  case_decide; congruence.
Qed.

Lemma fold_add_line items acc :
  fold_left Orders.add_line items acc = acc + snapshot_total items.
Proof.
  revert acc. induction items as [|item items IH]; intros acc; simpl.
  - lia.
  - rewrite IH. unfold Orders.add_line. rewrite or_zero_price. lia.
Qed.

Lemma total_amount_eq items : fold_left Orders.add_line items 0 = snapshot_total items.
Proof. rewrite fold_add_line. lia. Qed.

Lemma snapshot_total_app l1 l2 :
  snapshot_total (l1 ++ l2) = snapshot_total l1 + snapshot_total l2.
Proof. induction l1 as [|x l1 IH]; simpl; [done|]. rewrite IH. lia. Qed.

(** The batch insert numbers its rows from the random source, one draw each. *)
Lemma fill_defaults_eq rows w :
  Orders.fill_defaults rows w =
  (imap (filled_row w) rows, with_drawn (length rows + drawn w) w).
Proof.
  revert w. induction rows as [|r rows IH]; intros w; simpl.
  - by destruct w.
  - rewrite IH. simpl. f_equal.
    + f_equal. apply imap_ext. intros i x _. unfold filled_row. simpl.
      by rewrite Nat.add_succ_r.
    + destruct w; unfold with_drawn; simpl. f_equal. lia.
Qed.

Lemma item_row_filled w oid items :
  map item_row (imap (filled_row w) (map (Orders.to_order_item oid) items)) =
  map (fun c => (oid, CartItem.product_id c, CartItem.quantity c, snapshot_price c)) items.
Proof.
  revert w. induction items as [|c items IH]; intros w; [done|].
  simpl. f_equal.
  - unfold item_row. simpl. by rewrite or_zero_price.
  - rewrite <- (IH (with_drawn (S (drawn w)) w)). f_equal. apply imap_ext.
    intros i x _. unfold filled_row. simpl. by rewrite Nat.add_succ_r.
Qed.

(** *** Session identifiers *)

Lemma append_nonempty_r (s t : string) : t ≠ "" → s +:+ t ≠ "".
Proof. destruct s; simpl; [done|]. intros _ H. discriminate H. Qed.

Lemma append_nonempty_l (s t : string) : s ≠ "" → s +:+ t ≠ "".
Proof. destruct s; simpl; [done|]. intros _ H. discriminate H. Qed.

Lemma hex_nonempty k n : hex (S k) n ≠ "".
Proof. simpl. apply append_nonempty_r. discriminate. Qed.

Lemma uuid_of_bits_nonempty bits : uuid_of_bits bits ≠ "".
Proof. unfold uuid_of_bits. apply append_nonempty_l, hex_nonempty. Qed.

(** A generated identifier is always truthy. *)
Lemma truthy_uuid bits : truthy (Some (uuid_of_bits bits)) = Some (uuid_of_bits bits).
Proof.
  unfold truthy. destruct (decide _) as [H|]; [|done].
  by apply uuid_of_bits_nonempty in H.
Qed.

(** The cart module's resolver leaves the identifier it returns in storage. *)
Lemma cart_getSessionId_persisted w :
  truthy (getItem "session_id" (snd (Cart.getSessionId w))) = Some (fst (Cart.getSessionId w)).
Proof.
  unfold Cart.getSessionId.
  destruct (truthy (getItem "session_id" w)) as [s|] eqn:E; simpl; [done|].
  unfold getItem, setItem. simpl. rewrite lookup_insert_eq. apply truthy_uuid.
Qed.

Lemma cart_getSessionId_stored w s :
  truthy (getItem "session_id" w) = Some s → Cart.getSessionId w = (s, w).
Proof. intros H. unfold Cart.getSessionId. by rewrite H. Qed.

(** Every call after the first returns the first call's value and writes nothing. *)
Lemma cart_getSessionId_stable w :
  Cart.getSessionId (snd (Cart.getSessionId w)) =
  (fst (Cart.getSessionId w), snd (Cart.getSessionId w)).
Proof. apply cart_getSessionId_stored, cart_getSessionId_persisted. Qed.

(** The first call writes at most once, and only the key [session_id]. *)
Lemma cart_getSessionId_writes w :
  writes (snd (Cart.getSessionId w)) = writes w ∨
  writes (snd (Cart.getSessionId w)) =
    writes w ++ [("session_id", fst (Cart.getSessionId w))].
Proof.
  unfold Cart.getSessionId.
  destruct (truthy (getItem "session_id" w)); simpl; [by left | by right].
Qed.

(** *** Symbolic execution of the operations *)

Ltac unfold_ops :=
  unfold Orders.createOrder, Orders.getOrders, Orders.getOrderById, Orders.getSessionId,
    Cart.clearCart, Cart.addToCart, Cart.removeFromCart, Cart.updateCartItemQuantity,
    Cart.getSessionId, Orders.insert_items, bind, sync, ret, throw, request, getItem.

Ltac on_session ls Es :=
  destruct (truthy (ls !! "session_id")) eqn:Es; simpl.

(** One request, according to the schedule. *)
Lemma request_carried {A} (op : World → Response A * World) w :
  no_fault 1 (faults w) →
  request op w = (Returned (fst (op (with_faults (tail (faults w)) w))),
                  snd (op (with_faults (tail (faults w)) w))).
Proof.
  destruct w as [ls wr en dr cl d fs]. simpl. intros H. unfold request. simpl.
  destruct fs as [|[?|] ?]; simpl in *; try tauto; by destruct (op _).
Qed.

Lemma request_failed {A} (op : World → Response A * World) w e :
  fault_at 0 e (faults w) →
  request op w = (Returned (failed e), with_faults (tail (faults w)) w).
Proof.
  destruct w as [ls wr en dr cl d fs]. simpl. intros H. unfold request. simpl.
  destruct fs as [|[?|] ?]; simpl in *; try tauto. by subst.
Qed.

Lemma no_fault_S n fs : no_fault (S n) fs → no_fault 1 fs ∧ no_fault n (tail fs).
Proof. destruct fs as [|[e|] fs]; simpl; try tauto. by destruct n. Qed.

Lemma fault_at_S k e fs : fault_at (S k) e fs → no_fault 1 fs ∧ fault_at k e (tail fs).
Proof. destruct fs as [|[e'|] fs]; simpl; tauto. Qed.

(** The resolver of the orders module touches neither the store nor the
    schedule nor the storage. *)
Lemma orders_getSessionId_frame w :
  db (snd (Orders.getSessionId w)) = db w ∧
  faults (snd (Orders.getSessionId w)) = faults w ∧
  localStorage (snd (Orders.getSessionId w)) = localStorage w.
Proof. unfold Orders.getSessionId. by destruct (truthy _). Qed.

(** [clearCart] leaves the order tables alone. *)
Lemma clearCart_frame w :
  orders (db (snd (Cart.clearCart w))) = orders (db w) ∧
  order_items (db (snd (Cart.clearCart w))) = order_items (db w).
Proof.
  destruct w as [ls wr en dr cl d fs].
  unfold Cart.clearCart, Cart.getSessionId, bind, sync, request, ret, throw, getItem. simpl.
  destruct (truthy (ls !! "session_id")); simpl; by destruct fs as [|[e|] fs].
Qed.

Lemma clearCart_carried w :
  no_fault 1 (faults w) →
  fst (Cart.clearCart w) = Returned tt ∧
  cart_items (db (snd (Cart.clearCart w))) =
    filter (fun c => CartItem.session_id c ≠ Some (fst (Cart.getSessionId w)))
      (cart_items (db w)).
Proof.
  destruct w as [ls wr en dr cl d fs]. simpl. intros H.
  unfold Cart.clearCart, Cart.getSessionId, bind, sync, request, ret, throw, getItem. simpl.
  destruct (truthy (ls !! "session_id")); simpl;
    destruct fs as [|[e|] fs]; simpl in *; by try tauto.
Qed.

Lemma clearCart_propagates w e :
  fault_at 0 e (faults w) →
  fst (Cart.clearCart w) = Thrown (StoreError e) ∧
  db (snd (Cart.clearCart w)) = db w.
Proof.
  destruct w as [ls wr en dr cl d fs]. simpl. intros H.
  unfold Cart.clearCart, Cart.getSessionId, bind, sync, request, ret, throw, getItem. simpl.
  destruct (truthy (ls !! "session_id")); simpl.
  all: destruct fs as [|[?|] ?]; simpl in H; try tauto; by subst.
Qed.

(** Both inserts carried out: what [createOrder] leaves in the store,
    and how the outcome of the cart clearing becomes its own. *)
Lemma createOrder_inserts items od w :
  no_fault 2 (faults w) →
  ∃ order rows,
    orders (db (snd (Orders.createOrder items od w))) = orders (db w) ++ [order] ∧
    order_items (db (snd (Orders.createOrder items od w))) = order_items (db w) ++ rows ∧
    Order.total_amount order = snapshot_total items ∧
    Order.status order = pending ∧
    map item_row rows =
      map (fun c => (Order.id order, CartItem.product_id c, CartItem.quantity c,
                     snapshot_price c)) items ∧
    (no_fault 3 (faults w) → fst (Orders.createOrder items od w) = Returned order) ∧
    (∀ e, fault_at 2 e (faults w) →
       fst (Orders.createOrder items od w) = Thrown (StoreError e) ∧
       cart_items (db (snd (Orders.createOrder items od w))) = cart_items (db w)).
Proof.
  intros H. apply (no_fault_S 1) in H as [H1 H2].
  destruct (orders_getSessionId_frame w) as (Hdb & Hfs & _).
  unfold Orders.createOrder, bind, sync.
  destruct (Orders.getSessionId w) as [s w1]. simpl in Hdb, Hfs.
  rewrite request_carried by (by rewrite Hfs). simpl.
  rewrite request_carried by (change (no_fault 1 (tail (faults w1))); by rewrite Hfs).
  unfold Orders.insert_items. rewrite fill_defaults_eq. simpl.
  match goal with |- context [Cart.clearCart ?W] => set (w3 := W) end.
  destruct (clearCart_frame w3) as [Ho Hi].
  eexists _, _. split_and!.
  - destruct (Cart.clearCart w3) as [[[]|x] w4]; simpl in *; rewrite Ho; unfold w3; simpl;
      rewrite Hdb; reflexivity.
  - destruct (Cart.clearCart w3) as [[[]|x] w4]; simpl in *; rewrite Hi; unfold w3; simpl;
      by rewrite Hdb.
  - apply total_amount_eq.
  - reflexivity.
  - apply item_row_filled.
  - intros H3. apply (no_fault_S 2) in H3 as [_ H3]. apply (no_fault_S 1) in H3 as [_ H3].
    destruct (clearCart_carried w3) as [Hr _];
      [change (no_fault 1 (tail (tail (faults w1)))); by rewrite Hfs|].
    destruct (Cart.clearCart w3) as [[[]|x] w4]; simpl in *; [done | discriminate Hr].
  - intros e He. apply (fault_at_S 1) in He as [_ He]. apply (fault_at_S 0) in He as [_ He].
    destruct (clearCart_propagates w3 e) as [Hx Hc];
      [change (fault_at 0 e (tail (tail (faults w1)))); by rewrite Hfs|].
    destruct (Cart.clearCart w3) as [[[]|x] w4]; simpl in *; [discriminate Hx|].
    injection Hx as ->. split; [reflexivity|]. rewrite Hc. unfold w3. simpl. by rewrite Hdb.
Qed.

(** *** Independence from the [products] table *)

Lemma blind_ret {A} (a : A) : blind (ret a).
Proof. by intros ps w. Qed.

Lemma blind_throw {A} x : blind (@throw A x).
Proof. by intros ps w. Qed.

Lemma blind_bind {A B} (m : Async A) (k : A → Async B) :
  blind m → (∀ a, blind (k a)) → blind (bind m k).
Proof.
  intros Hm Hk ps w. unfold bind. rewrite Hm.
  destruct (m w) as [[a|x] w1]; simpl; [|done].
  rewrite Hk. by destruct (k a w1).
Qed.

Lemma blind_sync {A} (f : World → A * World) :
  (∀ ps w, f (reprice ps w) = (fst (f w), reprice ps (snd (f w)))) → blind (sync f).
Proof.
  intros Hf ps w. unfold sync. rewrite Hf. by destruct (f w).
Qed.

Lemma blind_request {A} (op : World → Response A * World) :
  (∀ ps w, op (reprice ps w) = (fst (op w), reprice ps (snd (op w)))) → blind (request op).
Proof.
  intros Hop ps w. unfold request.
  change (faults (reprice ps w)) with (faults w).
  destruct (faults w) as [|[e|] fs]; try done.
  - rewrite Hop. by destruct (op w).
  - change (with_faults fs (reprice ps w)) with (reprice ps (with_faults fs w)).
    rewrite Hop. by destruct (op _).
Qed.

Lemma blind_clearCart : blind Cart.clearCart.
Proof.
  apply blind_bind.
  - apply blind_sync. intros ps w. unfold Cart.getSessionId, getItem. simpl.
    by destruct (truthy _).
  - intros s. apply blind_bind.
    + apply blind_request. by intros ps w.
    + intros r. destruct (error r); [apply blind_throw | apply blind_ret].
Qed.

Lemma blind_createOrder items od : blind (Orders.createOrder items od).
Proof.
  apply blind_bind.
  - apply blind_sync. intros ps w. unfold Orders.getSessionId, getItem. simpl.
    by destruct (truthy _).
  - intros s. apply blind_bind.
    + apply blind_request. by intros ps w.
    + intros r. destruct (error r); [apply blind_throw|].
      destruct (data r) as [order|]; [|apply blind_throw].
      apply blind_bind.
      * apply blind_request. intros ps w. unfold Orders.insert_items.
        rewrite !fill_defaults_eq. done.
      * intros r1. destruct (error r1); [apply blind_throw|].
        apply blind_bind; [apply blind_clearCart|]. intros _. apply blind_ret.
Qed.

(** *** Order placement *)

(** C1. Whenever both inserts of [createOrder] are carried out, the
    [total_amount] of the inserted Order is the sum over the given cart
    items of quantity times the price of the product attached to the item
    at call time; each inserted OrderItem carries that snapshotted price
    and the copied quantity; the Order is the value returned when the cart
    clearing goes through too; and nothing of this depends on the live
    [products] table, whatever it has become. *)
Theorem createOrder_total_is_snapshot_sum items od w :
  no_fault 2 (faults w) →
  ∃ order rows,
    orders (db (snd (Orders.createOrder items od w))) = orders (db w) ++ [order] ∧
    order_items (db (snd (Orders.createOrder items od w))) = order_items (db w) ++ rows ∧
    Order.total_amount order = snapshot_total items ∧
    map item_row rows =
      map (fun c => (Order.id order, CartItem.product_id c, CartItem.quantity c,
                     snapshot_price c)) items ∧
    (no_fault 3 (faults w) → fst (Orders.createOrder items od w) = Returned order) ∧
    ∀ ps, Orders.createOrder items od (reprice ps w) =
          (fst (Orders.createOrder items od w),
           reprice ps (snd (Orders.createOrder items od w))).
Proof.
  intros H. destruct (createOrder_inserts items od w H)
    as (order & rows & Ho & Hi & Ht & _ & Hr & Hret & _).
  exists order, rows. split_and!; try done. intros ps. apply blind_createOrder.
Qed.

Lemma createOrder_total_is_snapshot_sum_witness :
  no_fault 2 (faults (shop_world [])) ∧
  ∃ order rows,
    orders (db (snd (Orders.createOrder cart_S checkout_form (shop_world [])))) =
      orders (db (shop_world [])) ++ [order] ∧
    order_items (db (snd (Orders.createOrder cart_S checkout_form (shop_world [])))) =
      order_items (db (shop_world [])) ++ rows ∧
    Order.total_amount order = 3500 ∧
    length rows = 2%nat.
Proof.
  split; [exact I|].
  destruct (createOrder_total_is_snapshot_sum cart_S checkout_form (shop_world []) I)
    as (order & rows & Ho & Hi & Ht & Hr & _).
  exists order, rows. split_and!; [exact Ho | exact Hi | exact Ht |].
  apply (f_equal length) in Hr. rewrite !length_map in Hr. exact Hr.
Defined.

(** The checkout walk-through: 3 x 10.00 + 1 x 5.00 = 35.00 although the
    catalogue has changed; two order items; the cart is empty afterwards. *)
Example checkout_walk_total :
  Order.total_amount <$> orders (db (snd (checkout_walk catalog_world))) = [3500] ∧
  item_row <$> order_items (db (snd (checkout_walk catalog_world))) =
    (fun '(p, q, pr) =>
       (default "" (Order.id <$> head (orders (db (snd (checkout_walk catalog_world))))),
        p, q, pr)) <$> [("P1", 3, 1000); ("P2", 1, 500)] ∧
  cart_items (db (snd (checkout_walk catalog_world))) = [].
Proof. split_and!; vm_compute; reflexivity. Qed.

(** C10. A cart item whose joined product is absent does not make
    [createOrder] fail: with the store answering, the Order is returned,
    the line adds nothing to its [total_amount] (the total is that of the
    other lines), and the OrderItem inserted for the line has price 0 and
    the line's quantity. *)
Theorem createOrder_absent_product pre item post od w :
  CartItem.product item = None →
  no_fault 3 (faults w) →
  ∃ order rows row,
    fst (Orders.createOrder (pre ++ item :: post) od w) = Returned order ∧
    Order.total_amount order = fold_left Orders.add_line (pre ++ post) 0 ∧
    order_items (db (snd (Orders.createOrder (pre ++ item :: post) od w))) =
      order_items (db w) ++ rows ∧
    rows !! length pre = Some row ∧
    OrderItem.price row = 0 ∧
    OrderItem.quantity row = CartItem.quantity item ∧
    OrderItem.product_id row = CartItem.product_id item.
Proof.
  intros Hp H3.
  assert (H2 : no_fault 2 (faults w)).
  { destruct (faults w) as [|[?|] [|[?|] ?]]; simpl in *; tauto. }
  destruct (createOrder_inserts (pre ++ item :: post) od w H2)
    as (order & rows & _ & Hi & Ht & _ & Hr & Hret & _).
  assert (Hrow : (item_row <$> rows) !! length pre =
                 Some (Order.id order, CartItem.product_id item, CartItem.quantity item, 0)).
  { change (item_row <$> rows) with (map item_row rows). rewrite Hr.
    change (map ?f ?l) with (f <$> l). rewrite list_lookup_fmap.
    rewrite list_lookup_middle by done. simpl.
    unfold snapshot_price. by rewrite Hp. }
  rewrite list_lookup_fmap in Hrow.
  destruct (rows !! length pre) as [row|] eqn:Erow; [|done].
  simpl in Hrow. injection Hrow as _ Hpid Hq Hpr.
  exists order, rows, row. split_and!; auto.
  rewrite Ht, total_amount_eq, !snapshot_total_app. simpl.
  unfold snapshot_price. rewrite Hp. lia.
Qed.

Lemma createOrder_absent_product_witness :
  CartItem.product orphan_line = None ∧
  no_fault 3 (faults (shop_world [])) ∧
  ∃ order (rows : list OrderItem.t) row,
    fst (Orders.createOrder (cart_S ++ orphan_line :: []) checkout_form (shop_world [])) =
      Returned order ∧
    Order.total_amount order = 3500 ∧
    rows !! 2%nat = Some row ∧
    OrderItem.price row = 0 ∧
    OrderItem.quantity row = 4.
Proof.
  split; [reflexivity|]. split; [exact I|].
  destruct (createOrder_absent_product cart_S orphan_line [] checkout_form (shop_world [])
              eq_refl I) as (order & rows & row & Hret & Ht & _ & Hrow & Hpr & Hq & _).
  exists order, rows, row. split_and!; [exact Hret | exact Ht | exact Hrow | exact Hpr | exact Hq].
Defined.

(** C4, as the claim states it, fails: here the order header and the
    order items are inserted, the request that clears the cart fails, and
    [createOrder] raises instead of returning the placed Order. *)
Lemma createOrder_clear_fault_not_returned :
  fault_at 2 network_error (faults (shop_world [None; None; Some network_error])) ∧
  fst (Orders.createOrder cart_S checkout_form
         (shop_world [None; None; Some network_error])) = Thrown (StoreError network_error) ∧
  ¬ ∃ order,
      fst (Orders.createOrder cart_S checkout_form
             (shop_world [None; None; Some network_error])) = Returned order.
Proof.
  split; [reflexivity|]. split; [reflexivity|]. intros [order H]. discriminate H.
Qed.

(** C4, amended. When both inserts of [createOrder] are carried out and
    the request that clears the cart fails with [e], [createOrder] raises
    [e]; the Order and its items stay inserted, with the total and the
    price snapshots of the cart items, and the cart is left as it was. *)
Theorem createOrder_clear_fault items od w e :
  fault_at 2 e (faults w) →
  fst (Orders.createOrder items od w) = Thrown (StoreError e) ∧
  cart_items (db (snd (Orders.createOrder items od w))) = cart_items (db w) ∧
  ∃ order rows,
    orders (db (snd (Orders.createOrder items od w))) = orders (db w) ++ [order] ∧
    order_items (db (snd (Orders.createOrder items od w))) = order_items (db w) ++ rows ∧
    Order.total_amount order = snapshot_total items ∧
    map item_row rows =
      map (fun c => (Order.id order, CartItem.product_id c, CartItem.quantity c,
                     snapshot_price c)) items.
Proof.
  intros H.
  assert (H2 : no_fault 2 (faults w)).
  { destruct (faults w) as [|[?|] [|[?|] ?]]; simpl in *; tauto. }
  destruct (createOrder_inserts items od w H2)
    as (order & rows & Ho & Hi & Ht & _ & Hr & _ & Hclear).
  destruct (Hclear e H) as [Hx Hc].
  split; [exact Hx|]. split; [exact Hc|]. exists order, rows. by split_and!.
Qed.

Lemma createOrder_clear_fault_witness :
  fault_at 2 network_error (faults (shop_world [None; None; Some network_error])) ∧
  fst (Orders.createOrder cart_S checkout_form
         (shop_world [None; None; Some network_error])) = Thrown (StoreError network_error) ∧
  cart_items (db (snd (Orders.createOrder cart_S checkout_form
                         (shop_world [None; None; Some network_error])))) = [line_S; line_T].
Proof.
  split; [reflexivity|].
  destruct (createOrder_clear_fault cart_S checkout_form
              (shop_world [None; None; Some network_error]) network_error eq_refl)
    as (Hx & Hc & _).
  split; [exact Hx | exact Hc].
Defined.

(** C5. When the insert of the order header, or the insert of the order
    items after it, fails with [e], [createOrder] raises [e] and the cart
    table is left untouched.  No request to clear the cart is made: the
    failed request is the last one sent, and [localStorage], which
    [clearCart] may write, is as before.  After a failed header insert
    the store is unchanged; after a failed items insert it holds the
    header and no item. *)
Theorem createOrder_insert_fault items od w e :
  fault_at 0 e (faults w) ∨ fault_at 1 e (faults w) →
  fst (Orders.createOrder items od w) = Thrown (StoreError e) ∧
  cart_items (db (snd (Orders.createOrder items od w))) = cart_items (db w) ∧
  order_items (db (snd (Orders.createOrder items od w))) = order_items (db w) ∧
  writes (snd (Orders.createOrder items od w)) = writes w ∧
  (fault_at 0 e (faults w) →
     db (snd (Orders.createOrder items od w)) = db w ∧
     faults (snd (Orders.createOrder items od w)) = drop 1 (faults w)) ∧
  (fault_at 1 e (faults w) →
     (∃ order, orders (db (snd (Orders.createOrder items od w))) = orders (db w) ++ [order]) ∧
     faults (snd (Orders.createOrder items od w)) = drop 2 (faults w)).
Proof.
  intros H. destruct w as [ls wr en dr cl d fs]. simpl in H.
  unfold_ops. simpl. on_session ls Es.
  all: destruct fs as [|[e0|] [|[e1|] fs]]; simpl in H; try tauto; simpl.
  all: destruct H as [H|H]; try done; subst; split_and!; try done.
  all: intros _; split; [eexists; reflexivity | reflexivity].
Qed.

Lemma createOrder_insert_fault_witness :
  (fault_at 0 network_error (faults (shop_world [None; Some network_error])) ∨
   fault_at 1 network_error (faults (shop_world [None; Some network_error]))) ∧
  fst (Orders.createOrder cart_S checkout_form (shop_world [None; Some network_error])) =
    Thrown (StoreError network_error) ∧
  cart_items (db (snd (Orders.createOrder cart_S checkout_form
                         (shop_world [None; Some network_error])))) = [line_S; line_T].
Proof.
  split; [right; reflexivity|].
  destruct (createOrder_insert_fault cart_S checkout_form
              (shop_world [None; Some network_error]) network_error
              (or_intror eq_refl)) as (Hx & Hc & _).
  split; [exact Hx | exact Hc].
Defined.

(** *** The cart *)

Lemma cart_lines_requantify s p id q l :
  cart_lines s p (map (requantify id q) l) = map (requantify id q) (cart_lines s p l).
Proof.
  unfold cart_lines, cart_of_session.
  induction l as [|c l IH]; simpl; [done|].
  assert (Hs : CartItem.session_id (requantify id q c) = CartItem.session_id c)
    by (unfold requantify; by case_decide).
  assert (Hp : CartItem.product_id (requantify id q c) = CartItem.product_id c)
    by (unfold requantify; by case_decide).
  rewrite !filter_cons, Hs. case_decide; [|exact IH].
  rewrite !filter_cons, Hp. case_decide; simpl; [by rewrite IH | exact IH].
Qed.

Lemma no_fault_drop n m fs :
  no_fault (n + m) fs → no_fault n fs ∧ no_fault m (drop n fs).
Proof.
  revert fs. induction n as [|n IH]; intros fs H; simpl in *.
  - split; [done|]. by rewrite drop_0.
  - destruct fs as [|[e|] fs]; simpl in *; [|done|by apply IH].
    split; [done|]. by destruct m.
Qed.

(** A row is there: its quantity is accumulated. *)
Lemma addToCart_existing p q w row :
  cart_lines (fst (Cart.getSessionId w)) p (cart_items (db w)) = [row] →
  no_fault 2 (faults w) →
  fst (Cart.addToCart p q w) = Returned tt ∧
  truthy (getItem "session_id" (snd (Cart.addToCart p q w))) =
    Some (fst (Cart.getSessionId w)) ∧
  faults (snd (Cart.addToCart p q w)) = drop 2 (faults w) ∧
  cart_lines (fst (Cart.getSessionId w)) p (cart_items (db (snd (Cart.addToCart p q w)))) =
    [set_quantity (CartItem.quantity row + q) row].
Proof.
  destruct w as [ls wr en dr cl d fs].
  unfold_ops. unfold Cart.select_line, getItem. simpl.
  destruct (truthy (ls !! "session_id")) as [s|] eqn:Es; simpl; intros Hl Hf.
  all: destruct fs as [|[?|] [|[?|] ?]]; simpl in Hf; try tauto; simpl; rewrite Hl; simpl.
  all: split_and!; try reflexivity; try done.
  all: try (by rewrite lookup_insert_eq; apply truthy_uuid).
  all: rewrite cart_lines_requantify, Hl; unfold requantify; simpl.
  all: by rewrite decide_True.
Qed.

Lemma cart_lines_snoc s p l row :
  cart_lines s p l = [] → CartItem.session_id row = Some s → CartItem.product_id row = p →
  cart_lines s p (l ++ [row]) = [row].
Proof.
  unfold cart_lines, cart_of_session. intros Hl Hs Hp.
  rewrite !filter_app, Hl. simpl.
  rewrite (filter_cons_True _ row []) by done. rewrite filter_nil.
  by rewrite (filter_cons_True _ row []).
Qed.

(** No row is there: one is inserted with the given quantity. *)
Lemma addToCart_missing p q w :
  cart_lines (fst (Cart.getSessionId w)) p (cart_items (db w)) = [] →
  no_fault 2 (faults w) →
  ∃ row,
    fst (Cart.addToCart p q w) = Returned tt ∧
    truthy (getItem "session_id" (snd (Cart.addToCart p q w))) =
      Some (fst (Cart.getSessionId w)) ∧
    faults (snd (Cart.addToCart p q w)) = drop 2 (faults w) ∧
    cart_lines (fst (Cart.getSessionId w)) p
      (cart_items (db (snd (Cart.addToCart p q w)))) = [row] ∧
    CartItem.quantity row = q.
Proof.
  destruct w as [ls wr en dr cl d fs].
  unfold_ops. unfold Cart.select_line, getItem. simpl.
  destruct (truthy (ls !! "session_id")) as [s|] eqn:Es; simpl; intros Hl Hf.
  all: destruct fs as [|[?|] [|[?|] ?]]; simpl in Hf; try tauto; simpl; rewrite Hl; simpl.
  all: eexists; split_and!; try reflexivity; try done.
  all: first [ by apply cart_lines_snoc
             | by rewrite lookup_insert_eq; apply truthy_uuid
             | reflexivity ].
Qed.

(** Once the line is there and the session is stored, further calls keep
    the single line and add to its quantity. *)
Lemma add_each_existing p qs : ∀ w s row,
  truthy (getItem "session_id" w) = Some s →
  cart_lines s p (cart_items (db w)) = [row] →
  no_fault (2 * length qs) (faults w) →
  ∃ row',
    fst (add_each p qs w) = Returned tt ∧
    truthy (getItem "session_id" (snd (add_each p qs w))) = Some s ∧
    cart_lines s p (cart_items (db (snd (add_each p qs w)))) = [row'] ∧
    CartItem.quantity row' = CartItem.quantity row + sum_Z qs.
Proof.
  induction qs as [|q qs IH]; intros w s row Hs Hl Hf.
  - exists row. simpl. split_and!; try done. lia.
  - replace (2 * length (q :: qs))%nat with (2 + 2 * length qs)%nat in Hf by (simpl; lia).
    apply no_fault_drop in Hf as [Hf2 Hf].
    pose proof (cart_getSessionId_stored w s Hs) as Hg.
    pose proof (addToCart_existing p q w row) as H.
    rewrite Hg in H. simpl in H. destruct (H Hl Hf2) as (Hr & Hs' & Hfs & Hl').
    simpl. unfold bind.
    destruct (Cart.addToCart p q w) as [o w1]. simpl in *. subst o.
    destruct (IH w1 s (set_quantity (CartItem.quantity row + q) row)) as (row' & ? & ? & ? & Hq);
      [done | done | by rewrite Hfs |].
    exists row'. split_and!; try done. rewrite Hq. simpl. lia.
Qed.

(** C2. A run of one or more [addToCart(p, q)] calls made one after the
    other from one session, every request to the store being carried
    out, returns normally and keeps the session.  Started without a row
    for (session, p), it leaves exactly one such row, whose quantity is
    the sum of the quantities passed (the first call inserts, the others
    accumulate); started with one such row, it leaves that one row with
    the sum added to its quantity. *)
Theorem addToCart_accumulates p q qs w :
  no_fault (2 * length (q :: qs)) (faults w) →
  (cart_lines (fst (Cart.getSessionId w)) p (cart_items (db w)) = [] →
   ∃ row,
     fst (add_each p (q :: qs) w) = Returned tt ∧
     fst (Cart.getSessionId (snd (add_each p (q :: qs) w))) = fst (Cart.getSessionId w) ∧
     cart_lines (fst (Cart.getSessionId w)) p
       (cart_items (db (snd (add_each p (q :: qs) w)))) = [row] ∧
     CartItem.quantity row = sum_Z (q :: qs)) ∧
  (∀ row0,
   cart_lines (fst (Cart.getSessionId w)) p (cart_items (db w)) = [row0] →
   ∃ row,
     fst (add_each p (q :: qs) w) = Returned tt ∧
     fst (Cart.getSessionId (snd (add_each p (q :: qs) w))) = fst (Cart.getSessionId w) ∧
     cart_lines (fst (Cart.getSessionId w)) p
       (cart_items (db (snd (add_each p (q :: qs) w)))) = [row] ∧
     CartItem.quantity row = CartItem.quantity row0 + sum_Z (q :: qs)).
Proof.
  intros Hf.
  replace (2 * length (q :: qs))%nat with (2 + 2 * length qs)%nat in Hf by (simpl; lia).
  apply no_fault_drop in Hf as [Hf2 Hf]. split.
  - intros Hl.
    destruct (addToCart_missing p q w Hl Hf2) as (row & Hr & Hs & Hfs & Hl' & Hq).
    simpl. unfold bind.
    destruct (Cart.addToCart p q w) as [o w1]. simpl in *. subst o.
    destruct (add_each_existing p qs w1 _ row Hs Hl') as (row' & ? & Hs' & ? & Hq');
      [by rewrite Hfs|].
    exists row'. split_and!; try done.
    + by rewrite (cart_getSessionId_stored _ _ Hs').
    + rewrite Hq'. lia.
  - intros row0 Hl.
    destruct (addToCart_existing p q w row0 Hl Hf2) as (Hr & Hs & Hfs & Hl').
    simpl. unfold bind.
    destruct (Cart.addToCart p q w) as [o w1]. simpl in *. subst o.
    destruct (add_each_existing p qs w1 _ _ Hs Hl') as (row' & ? & Hs' & ? & Hq');
      [by rewrite Hfs|].
    exists row'. split_and!; try done.
    + by rewrite (cart_getSessionId_stored _ _ Hs').
    + rewrite Hq'. simpl. lia.
Qed.

Lemma addToCart_accumulates_witness :
  no_fault (2 * length [2; 1]) (faults fresh_world) ∧
  cart_lines (fst (Cart.getSessionId fresh_world)) "P1" (cart_items (db fresh_world)) = [] ∧
  ∃ row,
    fst (add_each "P1" [2; 1] fresh_world) = Returned tt ∧
    cart_lines (fst (Cart.getSessionId fresh_world)) "P1"
      (cart_items (db (snd (add_each "P1" [2; 1] fresh_world)))) = [row] ∧
    CartItem.quantity row = 3.
Proof.
  split; [exact I|]. split; [reflexivity|].
  destruct (addToCart_accumulates "P1" 2 [1] fresh_world I) as [Hnew _].
  destruct (Hnew eq_refl) as (row & Hr & _ & Hl & Hq).
  exists row. split_and!; [exact Hr | exact Hl | exact Hq].
Defined.

Lemma bind_unit (m : Async unit) w : (_ <-- m ;; ret tt) w = m w.
Proof. unfold bind, ret. by destruct (m w) as [[[]|x] w']. Qed.

Lemma requantify_other id q l :
  filter (fun c => CartItem.id c ≠ id) (map (requantify id q) l) =
  filter (fun c => CartItem.id c ≠ id) l.
Proof.
  induction l as [|c l IH]; simpl; [done|].
  assert (Hid : CartItem.id (requantify id q c) = CartItem.id c)
    by (unfold requantify; by case_decide).
  rewrite !filter_cons, Hid, IH. case_decide as E; [|done].
  unfold requantify. by rewrite decide_False.
Qed.

(** C6. With the store answering, [updateCartItemQuantity(id, q)] for
    [q <= 0] is [removeFromCart(id)]: afterwards no row has that id and
    the other rows are as before; for [q > 0] every row with that id has
    quantity exactly [q], whatever it had before, no row is added or
    removed, and the other rows are as before. *)
Theorem updateCartItemQuantity_removes_or_sets id q w :
  no_fault 1 (faults w) →
  fst (Cart.updateCartItemQuantity id q w) = Returned tt ∧
  (q <= 0 →
     Cart.updateCartItemQuantity id q w = Cart.removeFromCart id w ∧
     (∀ c, c ∈ cart_items (db (snd (Cart.updateCartItemQuantity id q w))) →
           CartItem.id c ≠ id) ∧
     cart_items (db (snd (Cart.updateCartItemQuantity id q w))) =
       filter (fun c => CartItem.id c ≠ id) (cart_items (db w))) ∧
  (0 < q →
     (∀ i c, cart_items (db w) !! i = Some c →
             cart_items (db (snd (Cart.updateCartItemQuantity id q w))) !! i =
               Some (if decide (CartItem.id c = id) then set_quantity q c else c)) ∧
     length (cart_items (db (snd (Cart.updateCartItemQuantity id q w)))) =
       length (cart_items (db w)) ∧
     (∀ c, c ∈ cart_items (db (snd (Cart.updateCartItemQuantity id q w))) →
           CartItem.id c = id → CartItem.quantity c = q) ∧
     filter (fun c => CartItem.id c ≠ id)
       (cart_items (db (snd (Cart.updateCartItemQuantity id q w)))) =
     filter (fun c => CartItem.id c ≠ id) (cart_items (db w))).
Proof.
  intros Hf. unfold Cart.updateCartItemQuantity.
  destruct (decide (q <= 0)) as [Hq|Hq].
  - rewrite bind_unit. destruct w as [ls wr en dr cl d fs]. simpl in Hf.
    unfold_ops. simpl.
    destruct fs as [|[?|] ?]; simpl in Hf; try tauto; simpl.
    all: split; [reflexivity|]; split; [|intros; lia].
    all: intros _; split_and!; try reflexivity.
    all: intros c Hc; apply list_elem_of_filter in Hc; tauto.
  - destruct w as [ls wr en dr cl d fs]. simpl in Hf.
    unfold_ops. simpl.
    destruct fs as [|[?|] ?]; simpl in Hf; try tauto; simpl.
    all: split; [reflexivity|]; split; [intros; lia|].
    all: intros _; split_and!.
    all: try apply length_map.
    all: try apply requantify_other.
    all: try (intros i c Hc; change (map ?f ?l) with (f <$> l);
              by rewrite list_lookup_fmap, Hc).
    all: intros c Hc Hid; change (map ?f ?l) with (f <$> l) in Hc;
         apply list_elem_of_fmap in Hc as (c0 & -> & _);
         unfold requantify in *; destruct (decide (CartItem.id c0 = id)); [done|];
         simpl in Hid; contradiction.
Qed.

Lemma updateCartItemQuantity_removes_or_sets_witness :
  no_fault 1 (faults (shop_world [])) ∧
  cart_items (db (snd (Cart.updateCartItemQuantity "c1" 0 (shop_world [])))) = [line_T] ∧
  cart_items (db (snd (Cart.updateCartItemQuantity "c1" (-1) (shop_world [])))) = [line_T] ∧
  cart_items (db (snd (Cart.updateCartItemQuantity "c1" 7 (shop_world [])))) !! 0%nat =
    Some (set_quantity 7 line_S).
Proof.
  split; [exact I|].
  destruct (updateCartItemQuantity_removes_or_sets "c1" 0 (shop_world []) I)
    as (_ & H0 & _).
  destruct (updateCartItemQuantity_removes_or_sets "c1" (-1) (shop_world []) I)
    as (_ & H1 & _).
  destruct (updateCartItemQuantity_removes_or_sets "c1" 7 (shop_world []) I)
    as (_ & _ & H7).
  split_and!.
  - apply H0. done.
  - apply H1. done.
  - apply (proj1 (H7 eq_refl) 0%nat line_S eq_refl).
Defined.

(** C9. With the store answering, [clearCart] returns normally; after it
    the caller's session has no cart item, every row left was there
    before, and the rows of every other owner are exactly as before. *)
Theorem clearCart_only_own_session w :
  no_fault 1 (faults w) →
  fst (Cart.clearCart w) = Returned tt ∧
  cart_of_session (fst (Cart.getSessionId w)) (cart_items (db (snd (Cart.clearCart w)))) = [] ∧
  (∀ c, c ∈ cart_items (db (snd (Cart.clearCart w))) → c ∈ cart_items (db w)) ∧
  filter (fun c => CartItem.session_id c ≠ Some (fst (Cart.getSessionId w)))
    (cart_items (db (snd (Cart.clearCart w)))) =
  filter (fun c => CartItem.session_id c ≠ Some (fst (Cart.getSessionId w)))
    (cart_items (db w)).
Proof.
  intros Hf. destruct w as [ls wr en dr cl d fs]. simpl in Hf.
  unfold cart_of_session. unfold_ops. simpl.
  destruct (truthy (ls !! "session_id")) as [s|]; simpl.
  all: destruct fs as [|[?|] ?]; simpl in Hf; try tauto; simpl.
  all: split_and!; try reflexivity.
  all: try (rewrite list_filter_filter; apply list_filter_iff; tauto).
  all: try (intros c Hc; apply list_elem_of_filter in Hc; tauto).
  all: rewrite list_filter_filter; induction (cart_items d) as [|c l IH]; [done|];
       rewrite filter_cons; case_decide; [tauto | exact IH].
Qed.

Lemma clearCart_only_own_session_witness :
  no_fault 1 (faults (shop_world [])) ∧
  fst (Cart.clearCart (shop_world [])) = Returned tt ∧
  cart_of_session "S" (cart_items (db (snd (Cart.clearCart (shop_world []))))) = [] ∧
  cart_of_session "T" (cart_items (db (snd (Cart.clearCart (shop_world []))))) = [line_T].
Proof.
  split; [exact I|].
  destruct (clearCart_only_own_session (shop_world []) I) as (Hr & Hs & _ & _).
  split_and!; [exact Hr | exact Hs | reflexivity].
Defined.

(** *** Propagation of store errors by the cart operations *)

Lemma removeFromCart_propagates id w e :
  fault_at 0 e (faults w) →
  fst (Cart.removeFromCart id w) = Thrown (StoreError e) ∧
  db (snd (Cart.removeFromCart id w)) = db w.
Proof.
  destruct w as [ls wr en dr cl d fs]. simpl. intros H. unfold_ops. simpl.
  destruct fs as [|[?|] ?]; simpl in H; try tauto. by subst.
Qed.

Lemma updateCartItemQuantity_propagates id q w e :
  fault_at 0 e (faults w) →
  fst (Cart.updateCartItemQuantity id q w) = Thrown (StoreError e) ∧
  db (snd (Cart.updateCartItemQuantity id q w)) = db w.
Proof.
  destruct w as [ls wr en dr cl d fs]. simpl. intros H. unfold_ops. simpl.
  destruct fs as [|[?|] ?]; simpl in H; try tauto. subst.
  by destruct (decide (q <= 0)).
Qed.

(** The write of [addToCart] (update or insert) propagates its error. *)
Lemma addToCart_write_propagates p q w e :
  fault_at 1 e (faults w) →
  fst (Cart.addToCart p q w) = Thrown (StoreError e) ∧
  db (snd (Cart.addToCart p q w)) = db w.
Proof.
  destruct w as [ls wr en dr cl d fs]. simpl. intros H.
  unfold_ops. unfold Cart.select_line. simpl.
  destruct (truthy (ls !! "session_id")); simpl.
  all: destruct fs as [|[?|] [|[?|] ?]]; simpl in H; try tauto; subst; simpl.
  all: by destruct (maybeSingle _) as [[?|] ?].
Qed.

(** The lookup of [addToCart] does not: its [error] is never read, the
    failed lookup counts as "no row", and the insert goes ahead. *)
Lemma addToCart_lookup_error_swallowed p q w e :
  fault_at 0 e (faults w) →
  no_fault 1 (tail (faults w)) →
  fst (Cart.addToCart p q w) = Returned tt ∧
  length (cart_items (db (snd (Cart.addToCart p q w)))) = S (length (cart_items (db w))).
Proof.
  destruct w as [ls wr en dr cl d fs]. simpl. intros H H1.
  unfold_ops. simpl.
  destruct (truthy (ls !! "session_id")); simpl.
  all: destruct fs as [|[?|] [|[?|] ?]]; simpl in H, H1; try tauto; subst; simpl.
  all: split; [reflexivity|]; rewrite length_app; simpl; lia.
Qed.

(** C7, at a failing input: session [S] already has a line of [P1]; the
    lookup request of [addToCart] fails with a network error and the next
    request goes through.  The error does not reach the caller: the call
    returns normally, and the cart of [S] now has two rows of [P1]. *)
Theorem addToCart_swallows_lookup_error :
  fst (Cart.addToCart "P1" 1 (shop_world [Some network_error])) = Returned tt ∧
  CartItem.quantity <$>
    cart_lines "S" "P1"
      (cart_items (db (snd (Cart.addToCart "P1" 1 (shop_world [Some network_error]))))) =
    [2; 1] ∧
  fst (Cart.removeFromCart "c1" (shop_world [Some network_error])) =
    Thrown (StoreError network_error).
Proof. split_and!; reflexivity. Qed.

(** *** Lookups of orders *)

Lemma filter_by_id_none (l : list Order.t) k :
  (∀ o, o ∈ l → Order.id o ≠ k) → filter (fun x => Order.id x = k) l = [].
Proof.
  induction l as [|x l IH]; intros H; [done|].
  rewrite filter_cons, decide_False.
  - apply IH. intros o Ho. apply H. by right.
  - apply H. by left.
Qed.

Lemma filter_by_id_NoDup (l : list Order.t) o :
  NoDup (map Order.id l) → o ∈ l →
  filter (fun x => Order.id x = Order.id o) l = [o].
Proof.
  induction l as [|x l IH]; intros Hnd Ho; [by apply elem_of_nil in Ho|].
  simpl in Hnd. apply NoDup_cons in Hnd as [Hx Hnd].
  change (map Order.id l) with (Order.id <$> l) in Hx.
  rewrite filter_cons. apply elem_of_cons in Ho as [->|Ho].
  - rewrite decide_True by done. f_equal. apply filter_by_id_none.
    intros y Hy E. apply Hx. rewrite <- E. by apply list_elem_of_fmap_2.
  - rewrite decide_False; [by apply IH|].
    intros E. apply Hx. rewrite E. by apply list_elem_of_fmap_2.
Qed.

(** C8. With the store answering and [id] the primary key of [orders]:
    for an id that no Order has, [getOrderById] returns [null] and does
    not raise; for the id of an existing Order it returns that Order. *)
Theorem getOrderById_absent_or_found orderId w :
  no_fault 1 (faults w) →
  NoDup (map Order.id (orders (db w))) →
  ((∀ o, o ∈ orders (db w) → Order.id o ≠ orderId) →
     fst (Orders.getOrderById orderId w) = Returned None) ∧
  (∀ o, o ∈ orders (db w) → Order.id o = orderId →
     fst (Orders.getOrderById orderId w) = Returned (Some o)).
Proof.
  intros Hf Hnd. destruct w as [ls wr en dr cl d fs]. simpl in *.
  unfold_ops. unfold Orders.select_by_id. simpl. split.
  - intros Hno.
    pose proof (filter_by_id_none _ _ Hno) as E.
    destruct fs as [|[?|] ?]; simpl in Hf; try tauto; simpl; by rewrite E.
  - intros o Ho <-. rewrite (filter_by_id_NoDup _ o Hnd Ho).
    destruct fs as [|[?|] ?]; simpl in Hf; try tauto; done.
Qed.

Lemma getOrderById_absent_or_found_witness :
  no_fault 1 (faults archive_world) ∧
  NoDup (map Order.id (orders (db archive_world))) ∧
  fst (Orders.getOrderById "o9" archive_world) = Returned None ∧
  fst (Orders.getOrderById "o2" archive_world) = Returned (Some second_order).
Proof.
  assert (Hnd : NoDup (map Order.id (orders (db archive_world)))).
  { simpl. apply NoDup_cons. split.
    - intros H. apply elem_of_cons in H as [H|H]; [discriminate H|].
      by apply elem_of_nil in H.
    - apply NoDup_singleton. }
  split; [exact I|]. split; [exact Hnd|].
  destruct (getOrderById_absent_or_found "o9" archive_world I Hnd) as [Habsent _].
  destruct (getOrderById_absent_or_found "o2" archive_world I Hnd) as [_ Hfound].
  split.
  - apply Habsent. intros o Ho. simpl in Ho.
    apply elem_of_cons in Ho as [->|Ho]; [discriminate|].
    apply elem_of_cons in Ho as [->|Ho]; [discriminate|].
    by apply elem_of_nil in Ho.
  - apply (Hfound second_order); [|reflexivity].
    simpl. apply elem_of_cons. right. apply elem_of_cons. by left.
Defined.

(** *** The session identifier in the orders module *)

(** With nothing stored, the resolver of the orders module draws an
    identifier and leaves the storage as it found it, so the next call
    draws again. *)
Lemma orders_getSessionId_redraws w :
  truthy (getItem "session_id" w) = None →
  Orders.getSessionId w = (uuid_of_bits (entropy w (drawn w)), with_drawn (S (drawn w)) w) ∧
  Orders.getSessionId (snd (Orders.getSessionId w)) =
    (uuid_of_bits (entropy w (S (drawn w))), with_drawn (S (S (drawn w))) w).
Proof.
  intros H. unfold Orders.getSessionId. rewrite H. unfold randomUUID. simpl.
  split; [done|]. unfold getItem in *. simpl. by rewrite H.
Qed.

(** C3, at a failing input: a first visit, nothing in [localStorage].
    The resolver of the orders module returns a different identifier on
    its second call and never stores one.  Seen from outside: an order
    placed by [createOrder] is filed under one identifier, the cart
    clearing inside it stores another, and [getOrders], called next, does
    not list the order. *)
Theorem orders_getSessionId_not_stable :
  fst (Orders.getSessionId fresh_world) ≠
    fst (Orders.getSessionId (snd (Orders.getSessionId fresh_world))) ∧
  writes (snd (Orders.getSessionId (snd (Orders.getSessionId fresh_world)))) = [] ∧
  getItem "session_id" (snd (Orders.getSessionId (snd (Orders.getSessionId fresh_world)))) =
    None ∧
  ∃ order,
    fst (Orders.createOrder [] checkout_form fresh_world) = Returned order ∧
    orders (db (snd (Orders.createOrder [] checkout_form fresh_world))) = [order] ∧
    Order.session_id order ≠
      getItem "session_id" (snd (Orders.createOrder [] checkout_form fresh_world)) ∧
    fst (Orders.getOrders (snd (Orders.createOrder [] checkout_form fresh_world))) =
      Returned [].
Proof.
  split_and!.
  - vm_compute. discriminate.
  - reflexivity.
  - reflexivity.
  - eexists. split_and!; [reflexivity | reflexivity | vm_compute; discriminate | reflexivity].
Qed.

(** * Further properties of the code *)

(** *** The cart module, beyond the claims *)

(** X1. The cart module's [getSessionId] always returns a non-empty
    identifier that is in [localStorage] under [session_id] afterwards;
    a second call returns the same identifier and changes nothing; the
    first call writes storage at most once, and not at all when a
    non-empty identifier was already stored. *)
Theorem cart_getSessionId_once w :
  fst (Cart.getSessionId w) ≠ "" ∧
  getItem "session_id" (snd (Cart.getSessionId w)) = Some (fst (Cart.getSessionId w)) ∧
  Cart.getSessionId (snd (Cart.getSessionId w)) =
    (fst (Cart.getSessionId w), snd (Cart.getSessionId w)) ∧
  (length (writes (snd (Cart.getSessionId w))) ≤ S (length (writes w)))%nat ∧
  (∀ s, getItem "session_id" w = Some s → s ≠ "" → Cart.getSessionId w = (s, w)).
Proof.
  split_and!.
  - unfold Cart.getSessionId.
    destruct (truthy (getItem "session_id" w)) as [s|] eqn:E; simpl.
    + destruct (getItem "session_id" w) as [x|]; simpl in E; [|done].
      case_decide; congruence.
    + apply uuid_of_bits_nonempty.
  - pose proof (cart_getSessionId_persisted w) as H.
    destruct (getItem _ _) as [x|]; simpl in H; [|done]. by case_decide.
  - apply cart_getSessionId_stable.
  - destruct (cart_getSessionId_writes w) as [-> | ->]; [lia|].
    rewrite length_app. simpl. lia.
  - intros s Hs Hne. apply cart_getSessionId_stored. rewrite Hs. simpl.
    by rewrite decide_False.
Qed.

(** X2. Once the cart module has resolved the session, the resolver of
    the orders module returns the same identifier and draws no new one. *)
Theorem orders_getSessionId_after_cart w :
  Orders.getSessionId (snd (Cart.getSessionId w)) =
    (fst (Cart.getSessionId w), snd (Cart.getSessionId w)).
Proof.
  unfold Orders.getSessionId. by rewrite cart_getSessionId_persisted.
Qed.

Lemma cart_getSessionId_frame w :
  db (snd (Cart.getSessionId w)) = db w ∧ faults (snd (Cart.getSessionId w)) = faults w.
Proof. unfold Cart.getSessionId. by destruct (truthy _). Qed.

Lemma lookup_product_Some pid d p :
  lookup_product pid d = Some p → p ∈ products d ∧ Product.id p = pid.
Proof.
  unfold lookup_product. induction (products d) as [|x l IH]; simpl; [done|].
  case_bool_decide as E.
  - intros [= ->]. split; [by left | done].
  - intros H. destruct (IH H). split; [by right | done].
Qed.

Lemma lookup_product_None pid d :
  lookup_product pid d = None → ∀ p, p ∈ products d → Product.id p ≠ pid.
Proof.
  unfold lookup_product. induction (products d) as [|x l IH]; simpl.
  - intros _ p Hp. by apply elem_of_nil in Hp.
  - case_bool_decide as E; [done|]. intros H p Hp.
    apply elem_of_cons in Hp as [->|Hp]; [done | by apply IH].
Qed.

(** What [getCartItems] returns when its request is carried out. *)
Lemma getCartItems_carried w :
  no_fault 1 (faults w) →
  fst (Cart.getCartItems w) =
    Returned (map (join_cart_product (db w))
                (cart_of_session (fst (Cart.getSessionId w)) (cart_items (db w)))) ∧
  db (snd (Cart.getCartItems w)) = db w ∧
  faults (snd (Cart.getCartItems w)) = tail (faults w) ∧
  truthy (getItem "session_id" (snd (Cart.getCartItems w))) = Some (fst (Cart.getSessionId w)).
Proof.
  intros H. pose proof (cart_getSessionId_persisted w) as Hp.
  destruct (cart_getSessionId_frame w) as [Hdb Hfs].
  unfold Cart.getCartItems, bind, sync.
  destruct (Cart.getSessionId w) as [s w1]. simpl in *.
  rewrite request_carried by (by rewrite Hfs). simpl.
  rewrite Hdb, Hfs. done.
Qed.

(** X3. With the store answering, [getCartItems] returns the caller's
    lines and only those, in table order and with their quantities; the
    product attached to a line is a row of the live [products] table with
    the line's [product_id], and a line is without product exactly when
    the table has no such row. *)
Theorem getCartItems_scoped_and_joined w :
  no_fault 1 (faults w) →
  ∃ items,
    fst (Cart.getCartItems w) = Returned items ∧
    (∀ item, item ∈ items → CartItem.session_id item = Some (fst (Cart.getSessionId w))) ∧
    map (fun c => (CartItem.id c, CartItem.product_id c, CartItem.quantity c)) items =
      map (fun c => (CartItem.id c, CartItem.product_id c, CartItem.quantity c))
        (cart_of_session (fst (Cart.getSessionId w)) (cart_items (db w))) ∧
    (∀ item p, item ∈ items → CartItem.product item = Some p →
       p ∈ products (db w) ∧ Product.id p = CartItem.product_id item) ∧
    (∀ item, item ∈ items → CartItem.product item = None →
       ∀ p, p ∈ products (db w) → Product.id p ≠ CartItem.product_id item).
Proof.
  intros H. destruct (getCartItems_carried w H) as (Hr & _).
  eexists. split; [exact Hr|].
  set (s := fst (Cart.getSessionId w)). split_and!.
  - intros item Hi. change (map ?f ?l) with (f <$> l) in Hi.
    apply list_elem_of_fmap in Hi as (c & -> & Hc).
    apply list_elem_of_filter in Hc as [Hs _]. exact Hs.
  - rewrite map_map. done.
  - intros item p Hi Hp. change (map ?f ?l) with (f <$> l) in Hi.
    apply list_elem_of_fmap in Hi as (c & -> & Hc). simpl in *.
    by apply lookup_product_Some.
  - intros item Hi Hp. change (map ?f ?l) with (f <$> l) in Hi.
    apply list_elem_of_fmap in Hi as (c & -> & Hc). simpl in *.
    by apply lookup_product_None.
Qed.

Lemma getCartItems_scoped_and_joined_witness :
  no_fault 1 (faults (shop_world [])) ∧
  ∃ items,
    fst (Cart.getCartItems (shop_world [])) = Returned items ∧
    map (fun c => (CartItem.id c, CartItem.product_id c, CartItem.quantity c)) items =
      [("c1", "P1", 2)].
Proof.
  split; [exact I|].
  destruct (getCartItems_scoped_and_joined (shop_world []) I) as (items & Hr & _ & Hm & _).
  exists items. split; [exact Hr | exact Hm].
Defined.

(** X4. A read whose request fails with [e] raises [e] unchanged:
    [getCartItems], [getOrders], [getOrderById] and [getOrderItems]. *)
Theorem reads_propagate_errors w e orderId :
  fault_at 0 e (faults w) →
  fst (Cart.getCartItems w) = Thrown (StoreError e) ∧
  fst (Orders.getOrders w) = Thrown (StoreError e) ∧
  fst (Orders.getOrderById orderId w) = Thrown (StoreError e) ∧
  fst (Orders.getOrderItems orderId w) = Thrown (StoreError e).
Proof.
  intros H. destruct w as [ls wr en dr cl d fs]. simpl in H.
  unfold Cart.getCartItems, Orders.getOrders, Orders.getOrderItems. unfold_ops. simpl.
  destruct fs as [|[e'|] fs]; simpl in H; try tauto. subst e'.
  destruct (truthy (ls !! "session_id")); simpl; done.
Qed.

Lemma reads_propagate_errors_witness :
  fault_at 0 network_error (faults (shop_world [Some network_error])) ∧
  fst (Cart.getCartItems (shop_world [Some network_error])) =
    Thrown (StoreError network_error) ∧
  fst (Orders.getOrderById "o1" (shop_world [Some network_error])) =
    Thrown (StoreError network_error).
Proof.
  split; [reflexivity|].
  destruct (reads_propagate_errors (shop_world [Some network_error]) network_error "o1"
              eq_refl) as (H1 & _ & H3 & _).
  split; [exact H1 | exact H3].
Defined.

(** X5. The four reads never change the store, whatever the schedule:
    all tables are after the call what they were before. *)
Theorem reads_leave_store_unchanged w orderId :
  db (snd (Cart.getCartItems w)) = db w ∧
  db (snd (Orders.getOrders w)) = db w ∧
  db (snd (Orders.getOrderById orderId w)) = db w ∧
  db (snd (Orders.getOrderItems orderId w)) = db w.
Proof.
  destruct w as [ls wr en dr cl d fs].
  unfold Cart.getCartItems, Orders.getOrders, Orders.getOrderItems. unfold_ops.
  unfold Orders.select_by_id. simpl.
  split_and!.
  - destruct (truthy (ls !! "session_id")); simpl; by destruct fs as [|[e'|] fs].
  - destruct (truthy (ls !! "session_id")); simpl; by destruct fs as [|[e'|] fs].
  - destruct fs as [|[e'|] fs]; simpl; try done.
    all: by destruct (maybeSingle _) as [? [?|]].
  - by destruct fs as [|[e'|] fs].
Qed.

Lemma filter_id_absent id (l : list CartItem.t) :
  (∀ c, c ∈ l → CartItem.id c ≠ id) → filter (fun c => CartItem.id c ≠ id) l = l.
Proof.
  induction l as [|x l IH]; intros H; [done|].
  rewrite filter_cons, decide_True by (apply H; by left).
  f_equal. apply IH. intros c Hc. apply H. by right.
Qed.

Lemma removeFromCart_carried id w :
  no_fault 1 (faults w) →
  fst (Cart.removeFromCart id w) = Returned tt ∧
  cart_items (db (snd (Cart.removeFromCart id w))) =
    filter (fun c => CartItem.id c ≠ id) (cart_items (db w)) ∧
  faults (snd (Cart.removeFromCart id w)) = tail (faults w) ∧
  localStorage (snd (Cart.removeFromCart id w)) = localStorage w ∧
  products (db (snd (Cart.removeFromCart id w))) = products (db w).
Proof.
  destruct w as [ls wr en dr cl d fs]. simpl. intros H. unfold_ops. simpl.
  destruct fs as [|[e'|] fs]; simpl in H; try tauto; done.
Qed.

(** X6. With the store answering, [removeFromCart(id)] deletes the rows
    with that id and nothing else, keeping the order of the others; for an
    id that no row has it succeeds and changes nothing; removing the same
    id a second time changes nothing more. *)
Theorem removeFromCart_deletes_by_id id w :
  no_fault 2 (faults w) →
  fst (Cart.removeFromCart id w) = Returned tt ∧
  (∀ c, c ∈ cart_items (db (snd (Cart.removeFromCart id w))) ↔
        c ∈ cart_items (db w) ∧ CartItem.id c ≠ id) ∧
  filter (fun c => CartItem.id c ≠ id) (cart_items (db (snd (Cart.removeFromCart id w)))) =
    filter (fun c => CartItem.id c ≠ id) (cart_items (db w)) ∧
  ((∀ c, c ∈ cart_items (db w) → CartItem.id c ≠ id) →
     cart_items (db (snd (Cart.removeFromCart id w))) = cart_items (db w)) ∧
  fst ((_ <-- Cart.removeFromCart id ;; Cart.removeFromCart id) w) = Returned tt ∧
  cart_items (db (snd ((_ <-- Cart.removeFromCart id ;; Cart.removeFromCart id) w))) =
    cart_items (db (snd (Cart.removeFromCart id w))).
Proof.
  intros H. apply (no_fault_S 1) in H as [H1 H2].
  destruct (removeFromCart_carried id w H1) as (Hr & Hc & Hf & _).
  split_and!.
  - exact Hr.
  - intros c. rewrite Hc, list_elem_of_filter. tauto.
  - rewrite Hc. apply list_filter_filter_l. tauto.
  - intros Hno. rewrite Hc. by apply filter_id_absent.
  - unfold bind. destruct (Cart.removeFromCart id w) as [o w1]. simpl in *. subst o.
    apply removeFromCart_carried. by rewrite Hf.
  - unfold bind. destruct (Cart.removeFromCart id w) as [o w1]. simpl in *. subst o.
    destruct (removeFromCart_carried id w1) as (_ & Hc1 & _); [by rewrite Hf|].
    rewrite Hc1, Hc. apply list_filter_filter_l. tauto.
Qed.

Lemma removeFromCart_deletes_by_id_witness :
  no_fault 2 (faults (shop_world [])) ∧
  cart_items (db (snd (Cart.removeFromCart "c1" (shop_world [])))) = [line_T] ∧
  cart_items (db (snd (Cart.removeFromCart "c9" (shop_world [])))) = [line_S; line_T].
Proof.
  split; [exact I|].
  destruct (removeFromCart_deletes_by_id "c9" (shop_world []) I) as (_ & _ & _ & H9 & _).
  split; [reflexivity|]. apply H9.
  intros c Hc. simpl in Hc.
  apply elem_of_cons in Hc as [->|Hc]; [discriminate|].
  apply elem_of_cons in Hc as [->|Hc]; [discriminate|].
  by apply elem_of_nil in Hc.
Defined.

Lemma requantify_absent id q (l : list CartItem.t) :
  (∀ c, c ∈ l → CartItem.id c ≠ id) → map (requantify id q) l = l.
Proof.
  induction l as [|x l IH]; intros H; [done|]. simpl.
  unfold requantify at 1. rewrite decide_False by (apply H; by left).
  f_equal. apply IH. intros c Hc. apply H. by right.
Qed.

(** X7. [updateCartItemQuantity] does not check that the row exists: for
    an id that no cart row has, and whatever the quantity, the call
    returns normally and the cart table is unchanged. *)
Theorem updateCartItemQuantity_unknown_id id q w :
  no_fault 1 (faults w) →
  (∀ c, c ∈ cart_items (db w) → CartItem.id c ≠ id) →
  fst (Cart.updateCartItemQuantity id q w) = Returned tt ∧
  cart_items (db (snd (Cart.updateCartItemQuantity id q w))) = cart_items (db w).
Proof.
  intros Hf Hno. unfold Cart.updateCartItemQuantity.
  destruct (decide (q <= 0)).
  - rewrite bind_unit. destruct (removeFromCart_carried id w Hf) as (Hr & Hc & _).
    split; [exact Hr|]. rewrite Hc. by apply filter_id_absent.
  - unfold bind. rewrite request_carried by done. simpl.
    split; [done|]. by apply requantify_absent.
Qed.

Lemma updateCartItemQuantity_unknown_id_witness :
  no_fault 1 (faults (shop_world [])) ∧
  (∀ c, c ∈ cart_items (db (shop_world [])) → CartItem.id c ≠ "c9") ∧
  fst (Cart.updateCartItemQuantity "c9" 4 (shop_world [])) = Returned tt ∧
  cart_items (db (snd (Cart.updateCartItemQuantity "c9" 4 (shop_world [])))) =
    [line_S; line_T].
Proof.
  assert (Hno : ∀ c, c ∈ cart_items (db (shop_world [])) → CartItem.id c ≠ "c9").
  { intros c Hc. simpl in Hc.
    apply elem_of_cons in Hc as [->|Hc]; [discriminate|].
    apply elem_of_cons in Hc as [->|Hc]; [discriminate|].
    by apply elem_of_nil in Hc. }
  split; [exact I|]. split; [exact Hno|].
  exact (updateCartItemQuantity_unknown_id "c9" 4 (shop_world []) I Hno).
Defined.

Lemma cart_lines_snoc_gen s p l row :
  CartItem.session_id row = Some s → CartItem.product_id row = p →
  cart_lines s p (l ++ [row]) = cart_lines s p l ++ [row].
Proof.
  unfold cart_lines, cart_of_session. intros Hs Hp.
  rewrite !filter_app. f_equal.
  rewrite (filter_cons_True _ row []) by done. rewrite filter_nil.
  by rewrite (filter_cons_True _ row []).
Qed.

(** X8. The duplicate rows of a (session, product) pair never heal: when
    the cart already has two or more rows for the pair, the lookup of
    [addToCart] yields no row, and with the store answering the call
    returns normally, adds one more row with the given quantity and leaves
    the quantities of the existing rows as they are. *)
Theorem addToCart_duplicates_grow p q w r1 r2 rest :
  cart_lines (fst (Cart.getSessionId w)) p (cart_items (db w)) = r1 :: r2 :: rest →
  no_fault 2 (faults w) →
  ∃ row,
    fst (Cart.addToCart p q w) = Returned tt ∧
    cart_lines (fst (Cart.getSessionId w)) p (cart_items (db (snd (Cart.addToCart p q w)))) =
      r1 :: r2 :: rest ++ [row] ∧
    CartItem.quantity row = q.
Proof.
  destruct w as [ls wr en dr cl d fs].
  unfold_ops. unfold Cart.select_line, getItem. simpl.
  destruct (truthy (ls !! "session_id")) as [s|] eqn:Es; simpl; intros Hl Hf.
  all: destruct fs as [|[?|] [|[?|] ?]]; simpl in Hf; try tauto; simpl; rewrite Hl; simpl.
  all: eexists; split_and!; try reflexivity.
  all: first [ rewrite cart_lines_snoc_gen, Hl by done; reflexivity | reflexivity ].
Qed.

Lemma addToCart_duplicates_grow_witness :
  cart_lines (fst (Cart.getSessionId (snd (Cart.addToCart "P1" 1 (shop_world [Some network_error])))))
    "P1" (cart_items (db (snd (Cart.addToCart "P1" 1 (shop_world [Some network_error]))))) =
    [line_S; CartItem.mk (uuid_of_bits (seed 0)) None (Some "S") "P1" 1 2%N None] ∧
  no_fault 2 (faults (snd (Cart.addToCart "P1" 1 (shop_world [Some network_error])))) ∧
  ∃ row,
    fst (Cart.addToCart "P1" 7 (snd (Cart.addToCart "P1" 1 (shop_world [Some network_error])))) =
      Returned tt ∧
    CartItem.quantity row = 7.
Proof.
  split; [reflexivity|]. split; [exact I|].
  destruct (addToCart_duplicates_grow "P1" 7
              (snd (Cart.addToCart "P1" 1 (shop_world [Some network_error])))
              _ _ [] eq_refl I) as (row & Hr & _ & Hq).
  exists row. split; [exact Hr | exact Hq].
Defined.

(** The cart operations write to [cart_items] only. *)
Lemma addToCart_frame p q w :
  products (db (snd (Cart.addToCart p q w))) = products (db w) ∧
  orders (db (snd (Cart.addToCart p q w))) = orders (db w) ∧
  order_items (db (snd (Cart.addToCart p q w))) = order_items (db w).
Proof.
  destruct w as [ls wr en dr cl d fs].
  unfold_ops. unfold Cart.select_line, getItem. simpl.
  destruct (truthy (ls !! "session_id")) as [s|]; simpl.
  all: destruct fs as [|[?|] [|[?|] ?]]; simpl; try done.
  all: by destruct (maybeSingle _) as [[?|] ?].
Qed.

(** X9. No cart operation touches the catalogue or the orders: after
    [addToCart], [updateCartItemQuantity], [removeFromCart] and
    [clearCart], whether they succeed or fail, the tables [products]
    (stock included), [orders] and [order_items] are what they were. *)
Theorem cart_operations_write_cart_only p id q w :
  (products (db (snd (Cart.addToCart p q w))) = products (db w) ∧
   orders (db (snd (Cart.addToCart p q w))) = orders (db w) ∧
   order_items (db (snd (Cart.addToCart p q w))) = order_items (db w)) ∧
  (products (db (snd (Cart.updateCartItemQuantity id q w))) = products (db w) ∧
   orders (db (snd (Cart.updateCartItemQuantity id q w))) = orders (db w) ∧
   order_items (db (snd (Cart.updateCartItemQuantity id q w))) = order_items (db w)) ∧
  (products (db (snd (Cart.removeFromCart id w))) = products (db w) ∧
   orders (db (snd (Cart.removeFromCart id w))) = orders (db w) ∧
   order_items (db (snd (Cart.removeFromCart id w))) = order_items (db w)) ∧
  (products (db (snd (Cart.clearCart w))) = products (db w) ∧
   orders (db (snd (Cart.clearCart w))) = orders (db w) ∧
   order_items (db (snd (Cart.clearCart w))) = order_items (db w)).
Proof.
  split; [apply addToCart_frame|].
  destruct w as [ls wr en dr cl d fs]. unfold_ops. simpl. split_and!.
  all: try (destruct (decide (q <= 0)); simpl; by destruct fs as [|[?|] ?]).
  all: try (by destruct fs as [|[?|] ?]).
  all: destruct (truthy (ls !! "session_id")); simpl; by destruct fs as [|[?|] ?].
Qed.

Lemma requantify_others (P : CartItem.t → Prop) `{!∀ c, Decision (P c)} id q
    (l : list CartItem.t) :
  (∀ c, P (requantify id q c) ↔ P c) →
  (∀ c, c ∈ l → CartItem.id c = id → ¬ P c) →
  filter P (map (requantify id q) l) = filter P l.
Proof.
  intros Hpres Hid. induction l as [|x l IH]; [done|]. simpl.
  rewrite !filter_cons.
  assert (IH' : filter P (map (requantify id q) l) = filter P l).
  { apply IH. intros c Hc. apply Hid. by right. }
  destruct (decide (P x)) as [Hx|Hx].
  - rewrite decide_True by (by apply Hpres). rewrite IH'. f_equal.
    unfold requantify. rewrite decide_False; [done|].
    intros E. by apply (Hid x); [left|..].
  - rewrite decide_False by (by rewrite Hpres). exact IH'.
Qed.

Lemma NoDup_id_inj (l : list CartItem.t) a b :
  NoDup (map CartItem.id l) → a ∈ l → b ∈ l → CartItem.id a = CartItem.id b → a = b.
Proof.
  induction l as [|x l IH]; intros Hnd Ha Hb E; [by apply elem_of_nil in Ha|].
  simpl in Hnd. apply NoDup_cons in Hnd as [Hx Hnd].
  change (map CartItem.id l) with (CartItem.id <$> l) in Hx.
  apply elem_of_cons in Ha as [->|Ha]; apply elem_of_cons in Hb as [->|Hb]; try done.
  - exfalso. apply Hx. rewrite E. by apply list_elem_of_fmap_2.
  - exfalso. apply Hx. rewrite <- E. by apply list_elem_of_fmap_2.
  - by apply IH.
Qed.

(** X10. With ids unique in [cart_items] (the primary key) and the store
    answering, [addToCart(p, q)] leaves every line of another session or
    of another product exactly as it was: the rows outside (session, p)
    form the same list before and after. *)
Theorem addToCart_other_lines_untouched p q w :
  no_fault 2 (faults w) →
  NoDup (map CartItem.id (cart_items (db w))) →
  filter (fun c => ¬ (CartItem.session_id c = Some (fst (Cart.getSessionId w)) ∧
                      CartItem.product_id c = p))
    (cart_items (db (snd (Cart.addToCart p q w)))) =
  filter (fun c => ¬ (CartItem.session_id c = Some (fst (Cart.getSessionId w)) ∧
                      CartItem.product_id c = p))
    (cart_items (db w)).
Proof.
  destruct w as [ls wr en dr cl d fs].
  unfold_ops. unfold Cart.select_line, getItem. simpl.
  destruct (truthy (ls !! "session_id")) as [s|] eqn:Es; simpl; intros Hf Hnd.
  all: destruct fs as [|[?|] [|[?|] ?]]; simpl in Hf; try tauto; simpl.
  all: match goal with |- context [maybeSingle ?L] =>
         destruct L as [|r [|r' l']] eqn:El; simpl end.
  all: try (rewrite filter_app, (filter_cons_False _ _ []), filter_nil, app_nil_r;
            [reflexivity | tauto]).
  all: apply requantify_others;
    [ intros c; unfold requantify; by case_decide
    | intros c Hc Hid Hnot; apply Hnot;
      assert (Hr : r ∈ [r]) by (by left);
      rewrite <- El in Hr; unfold cart_lines, cart_of_session in Hr;
      apply list_elem_of_filter in Hr as [Hrp Hr];
      apply list_elem_of_filter in Hr as [Hrs Hr];
      rewrite (NoDup_id_inj _ c r Hnd Hc Hr Hid); by split ].
Qed.

Lemma addToCart_other_lines_untouched_witness :
  no_fault 2 (faults (shop_world [])) ∧
  NoDup (map CartItem.id (cart_items (db (shop_world [])))) ∧
  filter (fun c => ¬ (CartItem.session_id c = Some "S" ∧ CartItem.product_id c = "P1"))
    (cart_items (db (snd (Cart.addToCart "P1" 1 (shop_world []))))) = [line_T].
Proof.
  assert (Hnd : NoDup (map CartItem.id (cart_items (db (shop_world []))))).
  { simpl. apply NoDup_cons. split.
    - intros H. apply elem_of_cons in H as [H|H]; [discriminate H|].
      by apply elem_of_nil in H.
    - apply NoDup_singleton. }
  split; [exact I|]. split; [exact Hnd|].
  exact (addToCart_other_lines_untouched "P1" 1 (shop_world []) I Hnd).
Defined.

Lemma filter_product_join d p (l : list CartItem.t) :
  filter (fun i => CartItem.product_id i = p) (map (join_cart_product d) l) =
  map (join_cart_product d) (filter (fun i => CartItem.product_id i = p) l).
Proof.
  induction l as [|x l IH]; [done|]. simpl.
  rewrite !filter_cons. simpl. case_decide; simpl; by rewrite IH.
Qed.

(** X11. Read after write: with the store answering, [getCartItems]
    called after [addToCart(p, q)] returns exactly one line for [p]; it
    carries the live product with that id (none if there is none), and
    its quantity is [q] when the cart had no line for [p], or the old
    quantity plus [q] when it had one. *)
Theorem addToCart_then_getCartItems p q w :
  no_fault 3 (faults w) →
  (cart_lines (fst (Cart.getSessionId w)) p (cart_items (db w)) = [] →
   ∃ items item,
     fst ((_ <-- Cart.addToCart p q ;; Cart.getCartItems) w) = Returned items ∧
     filter (fun i => CartItem.product_id i = p) items = [item] ∧
     CartItem.quantity item = q ∧
     CartItem.product item = lookup_product p (db w)) ∧
  (∀ row0,
   cart_lines (fst (Cart.getSessionId w)) p (cart_items (db w)) = [row0] →
   ∃ items item,
     fst ((_ <-- Cart.addToCart p q ;; Cart.getCartItems) w) = Returned items ∧
     filter (fun i => CartItem.product_id i = p) items = [item] ∧
     CartItem.quantity item = CartItem.quantity row0 + q ∧
     CartItem.product item = lookup_product p (db w)).
Proof.
  intros H. apply (no_fault_S 2) in H as [H1 H2].
  assert (Hf2 : no_fault 2 (faults w)).
  { destruct (faults w) as [|[?|] [|[?|] ?]]; simpl in *; tauto. }
  assert (Hf3 : no_fault 1 (drop 2 (faults w))).
  { destruct (faults w) as [|[?|] [|[?|] [|[?|] ?]]]; simpl in *; tauto. }
  destruct (addToCart_frame p q w) as (Hprod & _).
  assert (Hlk : ∀ w1, products (db w1) = products (db w) →
                 lookup_product p (db w1) = lookup_product p (db w)).
  { intros w1 E. unfold lookup_product. by rewrite E. }
  split.
  - intros Hl.
    destruct (addToCart_missing p q w Hl Hf2) as (row & Hr & Hs & Hfs & Hl' & Hq).
    unfold bind. destruct (Cart.addToCart p q w) as [o w1]. simpl in *. subst o.
    destruct (getCartItems_carried w1) as (Hg & _); [by rewrite Hfs|].
    rewrite (cart_getSessionId_stored _ _ Hs) in Hg. simpl in Hg.
    eexists _, (join_cart_product (db w1) row). split; [exact Hg|].
    rewrite filter_product_join. fold (cart_lines (fst (Cart.getSessionId w)) p (cart_items (db w1))).
    rewrite Hl'. simpl. split_and!; try done.
    unfold cart_lines in Hl'.
    assert (Hrow : row ∈ [row]) by (by left). rewrite <- Hl' in Hrow.
    apply list_elem_of_filter in Hrow as [-> _]. by apply Hlk.
  - intros row0 Hl.
    destruct (addToCart_existing p q w row0 Hl Hf2) as (Hr & Hs & Hfs & Hl').
    unfold bind. destruct (Cart.addToCart p q w) as [o w1]. simpl in *. subst o.
    destruct (getCartItems_carried w1) as (Hg & _); [by rewrite Hfs|].
    rewrite (cart_getSessionId_stored _ _ Hs) in Hg. simpl in Hg.
    eexists _, (join_cart_product (db w1) (set_quantity (CartItem.quantity row0 + q) row0)).
    split; [exact Hg|].
    rewrite filter_product_join. fold (cart_lines (fst (Cart.getSessionId w)) p (cart_items (db w1))).
    rewrite Hl'. simpl. split_and!; try done.
    assert (Hrow : row0 ∈ [row0]) by (by left). rewrite <- Hl in Hrow.
    unfold cart_lines in Hrow.
    apply list_elem_of_filter in Hrow as [-> _]. by apply Hlk.
Qed.

Lemma addToCart_then_getCartItems_witness :
  no_fault 3 (faults (shop_world [])) ∧
  ∃ items item,
    fst ((_ <-- Cart.addToCart "P1" 1 ;; Cart.getCartItems) (shop_world [])) = Returned items ∧
    filter (fun i => CartItem.product_id i = "P1") items = [item] ∧
    CartItem.quantity item = 3 ∧
    CartItem.product item = Some headphones.
Proof.
  split; [exact I|].
  destruct (addToCart_then_getCartItems "P1" 1 (shop_world []) I) as [_ Hold].
  destruct (Hold line_S eq_refl) as (items & item & Hr & Hf & Hq & Hp).
  exists items, item. split_and!; [exact Hr | exact Hf | exact Hq | exact Hp].
Defined.

(** *** The orders module, beyond the claims *)

Lemma clearCart_run w :
  no_fault 1 (faults w) →
  fst (Cart.clearCart w) = Returned tt ∧
  cart_items (db (snd (Cart.clearCart w))) =
    filter (fun c => CartItem.session_id c ≠ Some (fst (Cart.getSessionId w)))
      (cart_items (db w)) ∧
  faults (snd (Cart.clearCart w)) = tail (faults w) ∧
  truthy (getItem "session_id" (snd (Cart.clearCart w))) = Some (fst (Cart.getSessionId w)) ∧
  orders (db (snd (Cart.clearCart w))) = orders (db w) ∧
  order_items (db (snd (Cart.clearCart w))) = order_items (db w) ∧
  products (db (snd (Cart.clearCart w))) = products (db w).
Proof.
  intros H. pose proof (cart_getSessionId_persisted w) as Hp.
  destruct (cart_getSessionId_frame w) as [Hdb Hfs].
  unfold Cart.clearCart, bind, sync.
  destruct (Cart.getSessionId w) as [s w1]. simpl in *.
  rewrite request_carried by (by rewrite Hfs). simpl.
  rewrite Hdb, Hfs. done.
Qed.

(** All three requests carried out: the run of [createOrder] in full. *)
Lemma createOrder_success items od w :
  no_fault 3 (faults w) →
  ∃ order rows sc,
    fst (Orders.createOrder items od w) = Returned order ∧
    orders (db (snd (Orders.createOrder items od w))) = orders (db w) ++ [order] ∧
    order_items (db (snd (Orders.createOrder items od w))) = order_items (db w) ++ rows ∧
    products (db (snd (Orders.createOrder items od w))) = products (db w) ∧
    cart_items (db (snd (Orders.createOrder items od w))) =
      filter (fun c => CartItem.session_id c ≠ Some sc) (cart_items (db w)) ∧
    truthy (getItem "session_id" (snd (Orders.createOrder items od w))) = Some sc ∧
    (∀ s, truthy (getItem "session_id" w) = Some s → sc = s) ∧
    faults (snd (Orders.createOrder items od w)) = drop 3 (faults w) ∧
    order = Order.mk (Order.id order) None (Some (fst (Orders.getSessionId w)))
              (snapshot_total items) pending (OrderData.customer_email od)
              (OrderData.customer_name od) (OrderData.shipping_address od)
              (Order.created_at order) ∧
    map item_row rows =
      map (fun c => (Order.id order, CartItem.product_id c, CartItem.quantity c,
                     snapshot_price c)) items.
Proof.
  intros H. apply (no_fault_S 2) in H as [H1 H]. apply (no_fault_S 1) in H as [H2 H3].
  destruct (orders_getSessionId_frame w) as (Hdb & Hfs & Hls).
  assert (Hsid : ∀ s, truthy (getItem "session_id" w) = Some s →
                      fst (Orders.getSessionId w) = s).
  { intros s Hs. unfold Orders.getSessionId. by rewrite Hs. }
  unfold Orders.createOrder, bind, sync.
  destruct (Orders.getSessionId w) as [s w1]. simpl in Hdb, Hfs, Hls, Hsid.
  rewrite request_carried by (by rewrite Hfs). simpl.
  rewrite request_carried by (change (no_fault 1 (tail (faults w1))); by rewrite Hfs).
  unfold Orders.insert_items. rewrite fill_defaults_eq. simpl.
  match goal with |- context [Cart.clearCart ?W] => set (w3 := W) end.
  destruct (clearCart_run w3) as (Hr & Hc & Hf & Hp & Ho & Hi & Hpr);
    [change (no_fault 1 (tail (tail (faults w1)))); by rewrite Hfs|].
  assert (Hstored : ∀ s0, truthy (getItem "session_id" w) = Some s0 →
                          fst (Cart.getSessionId w3) = s0).
  { intros s0 Hs0. unfold Cart.getSessionId.
    change (getItem "session_id" w3) with (localStorage w1 !! "session_id").
    rewrite Hls. unfold getItem in Hs0. by rewrite Hs0. }
  remember (fst (Cart.getSessionId w3)) as sc eqn:Esc. clear Esc.
  destruct (Cart.clearCart w3) as [[[]|x] w4]; simpl in *; [|discriminate Hr].
  eexists _, _, sc. split_and!.
  - reflexivity.
  - rewrite Ho. unfold w3. simpl. by rewrite Hdb.
  - rewrite Hi. unfold w3. simpl. by rewrite Hdb.
  - rewrite Hpr. unfold w3. simpl. by rewrite Hdb.
  - rewrite Hc. unfold w3. simpl. by rewrite Hdb.
  - exact Hp.
  - exact Hstored.
  - rewrite Hf. unfold w3. simpl. rewrite Hfs.
    by destruct (faults w) as [|? [|? [|? ?]]].
  - simpl. by rewrite total_amount_eq.
  - apply item_row_filled.
Qed.

Lemma insert_desc_perm o l : Orders.insert_desc o l ≡ₚ o :: l.
Proof.
  induction l as [|x l IH]; simpl; [done|].
  destruct (_ <? _)%N; [done|]. rewrite IH. apply Permutation_swap.
Qed.

Lemma newest_first_perm l : Orders.newest_first l ≡ₚ l.
Proof.
  unfold Orders.newest_first. induction l as [|x l IH]; simpl; [done|].
  by rewrite insert_desc_perm, IH.
Qed.

Lemma insert_desc_sorted o l :
  StronglySorted newer_or_same l → StronglySorted newer_or_same (Orders.insert_desc o l).
Proof.
  induction l as [|x l IH]; intros Hs; simpl.
  - by repeat constructor.
  - apply StronglySorted_inv in Hs as [Hl Hx].
    destruct (Order.created_at x <? Order.created_at o)%N eqn:E.
    + apply N.ltb_lt in E. constructor; [by constructor|].
      constructor; [unfold newer_or_same; lia|].
      eapply Forall_impl; [exact Hx|]. unfold newer_or_same. intros y Hy. simpl in *. lia.
    + apply N.ltb_ge in E. constructor; [by apply IH|].
      rewrite insert_desc_perm. constructor; [exact E | exact Hx].
Qed.

Lemma newest_first_sorted l : StronglySorted newer_or_same (Orders.newest_first l).
Proof.
  unfold Orders.newest_first. induction l as [|x l IH]; simpl; [constructor|].
  by apply insert_desc_sorted.
Qed.

Lemma getOrders_carried w :
  no_fault 1 (faults w) →
  fst (Orders.getOrders w) =
    Returned (Orders.newest_first
                (filter (fun o => Order.session_id o = Some (fst (Orders.getSessionId w)))
                   (orders (db w)))).
Proof.
  intros H. destruct (orders_getSessionId_frame w) as (Hdb & Hfs & _).
  unfold Orders.getOrders, bind, sync.
  destruct (Orders.getSessionId w) as [s w1]. simpl in *.
  rewrite request_carried by (by rewrite Hfs). simpl. by rewrite Hdb.
Qed.

(** X12. With the store answering, [getOrders] returns the orders of the
    resolved session, all of them and no other, newest first: every order
    in the list was created no earlier than all the orders after it. *)
Theorem getOrders_newest_first w :
  no_fault 1 (faults w) →
  ∃ l,
    fst (Orders.getOrders w) = Returned l ∧
    l ≡ₚ filter (fun o => Order.session_id o = Some (fst (Orders.getSessionId w)))
           (orders (db w)) ∧
    StronglySorted newer_or_same l.
Proof.
  intros H. eexists. split; [by apply getOrders_carried|].
  split; [apply newest_first_perm | apply newest_first_sorted].
Qed.

Lemma getOrders_newest_first_witness :
  no_fault 1 (faults archive_world) ∧
  ∃ l, fst (Orders.getOrders archive_world) = Returned l ∧
       l ≡ₚ [first_order] ∧ StronglySorted newer_or_same l.
Proof.
  split; [exact I|].
  destruct (getOrders_newest_first archive_world I) as (l & Hr & Hp & Hs).
  exists l. split_and!; [exact Hr | exact Hp | exact Hs].
Defined.

Lemma getOrderItems_carried orderId w :
  no_fault 1 (faults w) →
  fst (Orders.getOrderItems orderId w) =
    Returned (map (join_order_product (db w))
                (filter (fun i => OrderItem.order_id i = orderId) (order_items (db w)))).
Proof.
  intros H. unfold Orders.getOrderItems, bind.
  rewrite request_carried by done. done.
Qed.

(** X13. With the store answering, [getOrderItems(orderId)] returns the
    items of that order and no other, with their own snapshotted price and
    quantity; the product attached to an item is the live row with its
    [product_id].  For an order id that no item refers to, the result is
    the empty list, not an error. *)
Theorem getOrderItems_of_order orderId w :
  no_fault 1 (faults w) →
  ∃ got,
    fst (Orders.getOrderItems orderId w) = Returned got ∧
    (∀ i, i ∈ got → OrderItem.order_id i = orderId) ∧
    map item_row got =
      map item_row (filter (fun i => OrderItem.order_id i = orderId) (order_items (db w))) ∧
    (∀ i, i ∈ got →
       OrderItem.product i = lookup_product (OrderItem.product_id i) (db w)) ∧
    ((∀ i, i ∈ order_items (db w) → OrderItem.order_id i ≠ orderId) → got = []).
Proof.
  intros H. eexists. split; [by apply getOrderItems_carried|]. split_and!.
  - intros i Hi. change (map ?f ?l) with (f <$> l) in Hi.
    apply list_elem_of_fmap in Hi as (c & -> & Hc).
    by apply list_elem_of_filter in Hc as [Hs _].
  - by rewrite map_map.
  - intros i Hi. change (map ?f ?l) with (f <$> l) in Hi.
    by apply list_elem_of_fmap in Hi as (c & -> & Hc).
  - intros Hno.
    replace (filter (fun i => OrderItem.order_id i = orderId) (order_items (db w)))
      with (@nil OrderItem.t); [done|].
    symmetry. induction (order_items (db w)) as [|x l IH]; [done|].
    rewrite filter_cons, decide_False by (apply Hno; by left).
    apply IH. intros i Hi. apply Hno. by right.
Qed.

Lemma getOrderItems_of_order_witness :
  no_fault 1 (faults archive_world) ∧
  fst (Orders.getOrderItems "o1" archive_world) = Returned [].
Proof.
  split; [exact I|].
  destruct (getOrderItems_of_order "o1" archive_world I) as (got & Hr & _ & _ & _ & He).
  rewrite Hr. f_equal. apply He. intros i Hi. by apply elem_of_nil in Hi.
Defined.

Lemma getOrderById_carried orderId w :
  no_fault 1 (faults w) →
  fst (Orders.getOrderById orderId w) =
    match error (maybeSingle (filter (fun o => Order.id o = orderId) (orders (db w)))) with
    | Some e => Thrown (StoreError e)
    | None => Returned (data (maybeSingle (filter (fun o => Order.id o = orderId)
                                             (orders (db w)))))
    end.
Proof.
  intros H. unfold Orders.getOrderById, bind.
  rewrite request_carried by done. unfold Orders.select_by_id. simpl.
  by destruct (error _).
Qed.

Lemma filter_none {A} (P : A → Prop) `{!∀ x, Decision (P x)} (l : list A) :
  (∀ x, x ∈ l → ¬ P x) → filter P l = [].
Proof.
  induction l as [|x l IH]; intros Hno; [done|].
  rewrite filter_cons, decide_False by (apply Hno; by left).
  apply IH. intros y Hy. apply Hno. by right.
Qed.

Lemma filter_Forall_id {A} (P : A → Prop) `{!∀ x, Decision (P x)} (l : list A) :
  Forall P l → filter P l = l.
Proof.
  induction 1 as [|x l Hx _ IH]; [done|].
  rewrite filter_cons, decide_True by done. by rewrite IH.
Qed.

(** The order placed by the checkout scenario. *)
Lemma placed_order_example :
  fst (Orders.createOrder cart_S checkout_form (shop_world [])) = Returned placed_order.
Proof. reflexivity. Qed.

(** X14. Insert and look up: after a [createOrder] that returned [order],
    in a store whose order ids are unique and do not contain the new id,
    [getOrderById(order.id)] returns that very Order. *)
Theorem createOrder_then_getOrderById items od w order :
  no_fault 4 (faults w) →
  fst (Orders.createOrder items od w) = Returned order →
  NoDup (map Order.id (orders (db w))) →
  (∀ o, o ∈ orders (db w) → Order.id o ≠ Order.id order) →
  fst (Orders.getOrderById (Order.id order) (snd (Orders.createOrder items od w))) =
    Returned (Some order).
Proof.
  intros H Hret Hnd Hfresh. apply (no_fault_drop 3 1) in H as [H3 H4].
  destruct (createOrder_success items od w H3)
    as (order0 & rows & sc & Hr & Ho & _ & _ & _ & _ & _ & Hf & _).
  rewrite Hr in Hret. injection Hret as ->.
  rewrite getOrderById_carried.
  - rewrite Ho, filter_app, (filter_by_id_none _ _ Hfresh).
    rewrite (filter_cons_True _ order []) by done. by rewrite filter_nil.
  - by rewrite Hf.
Qed.

Lemma createOrder_then_getOrderById_witness :
  no_fault 4 (faults (shop_world [])) ∧
  NoDup (map Order.id (orders (db (shop_world [])))) ∧
  fst (Orders.getOrderById (Order.id placed_order)
         (snd (Orders.createOrder cart_S checkout_form (shop_world [])))) =
    Returned (Some placed_order).
Proof.
  split; [exact I|]. split; [apply NoDup_nil_2|].
  apply (createOrder_then_getOrderById cart_S checkout_form (shop_world []) placed_order I
           placed_order_example (NoDup_nil_2 : NoDup (map Order.id []))).
  intros o Ho. exfalso. exact (proj1 (elem_of_nil o) Ho).
Defined.

(** X15. Insert and read back the items: after a [createOrder] that
    returned [order], in a store where no earlier order item refers to the
    new id, [getOrderItems(order.id)] returns one item per cart item, in
    order, with the cart item's product id and quantity and the price
    snapshot, each joined with the live product of that id. *)
Theorem createOrder_then_getOrderItems items od w order :
  no_fault 4 (faults w) →
  fst (Orders.createOrder items od w) = Returned order →
  (∀ i, i ∈ order_items (db w) → OrderItem.order_id i ≠ Order.id order) →
  ∃ got,
    fst (Orders.getOrderItems (Order.id order) (snd (Orders.createOrder items od w))) =
      Returned got ∧
    map item_row got =
      map (fun c => (Order.id order, CartItem.product_id c, CartItem.quantity c,
                     snapshot_price c)) items ∧
    map OrderItem.product got =
      map (fun c => lookup_product (CartItem.product_id c) (db w)) items.
Proof.
  intros H Hret Hfresh. apply (no_fault_drop 3 1) in H as [H3 H4].
  destruct (createOrder_success items od w H3)
    as (order0 & rows & sc & Hr & _ & Hi & Hp & _ & _ & _ & Hf & _ & Hrows).
  rewrite Hr in Hret. injection Hret as ->.
  assert (Hall : filter (fun i => OrderItem.order_id i = Order.id order) rows = rows).
  { apply (filter_Forall_id (fun i => OrderItem.order_id i = Order.id order)).
    apply Forall_forall. intros r Hin.
    apply (list_elem_of_fmap_2 item_row) in Hin.
    change (item_row <$> rows) with (map item_row rows) in Hin. rewrite Hrows in Hin.
    change (map ?f ?l) with (f <$> l) in Hin.
    apply list_elem_of_fmap in Hin as (c & E & _).
    injection E as E _ _ _. exact E. }
  assert (Hnone : filter (fun i => OrderItem.order_id i = Order.id order)
                    (order_items (db w)) = []).
  { apply (filter_none (fun i => OrderItem.order_id i = Order.id order)). exact Hfresh. }
  eexists. split.
  - apply getOrderItems_carried. by rewrite Hf.
  - rewrite Hi, filter_app, Hnone, Hall. simpl. split.
    + by rewrite map_map.
    + rewrite map_map. simpl.
      assert (Hpid : map OrderItem.product_id rows = map CartItem.product_id items).
      { apply (f_equal (map (fun t : string * string * Z * Z => t.1.1.2))) in Hrows.
        by rewrite !map_map in Hrows. }
      assert (Hlk : ∀ pid, lookup_product pid (db (snd (Orders.createOrder items od w))) =
                            lookup_product pid (db w)).
      { intros pid. unfold lookup_product. by rewrite Hp. }
      transitivity (map (fun pid => lookup_product pid (db w)) (map OrderItem.product_id rows)).
      * rewrite map_map. apply map_ext. intros a. apply Hlk.
      * rewrite Hpid. by rewrite map_map.
Qed.

Lemma createOrder_then_getOrderItems_witness :
  no_fault 4 (faults (shop_world [])) ∧
  ∃ got,
    fst (Orders.getOrderItems (Order.id placed_order)
           (snd (Orders.createOrder cart_S checkout_form (shop_world [])))) = Returned got ∧
    map OrderItem.price got = [1000; 500] ∧
    map OrderItem.product got = [Some headphones; Some plant_pot].
Proof.
  split; [exact I|].
  destruct (createOrder_then_getOrderItems cart_S checkout_form (shop_world [])
              placed_order I placed_order_example) as (got & Hr & Hrows & Hprod).
  { intros i Hi. exfalso. exact (proj1 (elem_of_nil i) Hi). }
  exists got. split; [exact Hr|]. split; [|exact Hprod].
  apply (f_equal (map (fun t : string * string * Z * Z => t.2))) in Hrows.
  rewrite !map_map in Hrows. exact Hrows.
Defined.

(** X16. With the session identifier already stored, the order that
    [createOrder] returns is listed by a following [getOrders]: the list
    is the order together with the session's earlier orders. *)
Theorem createOrder_then_getOrders items od w s :
  no_fault 4 (faults w) →
  truthy (getItem "session_id" w) = Some s →
  ∃ order l,
    fst (Orders.createOrder items od w) = Returned order ∧
    fst (Orders.getOrders (snd (Orders.createOrder items od w))) = Returned l ∧
    order ∈ l ∧
    l ≡ₚ order :: filter (fun o => Order.session_id o = Some s) (orders (db w)).
Proof.
  intros H Hs. apply (no_fault_drop 3 1) in H as [H3 H4].
  destruct (createOrder_success items od w H3)
    as (order & rows & sc & Hr & Ho & _ & _ & _ & Hsc & Hst & Hf & Hfields & _).
  rewrite (Hst s Hs) in Hsc.
  assert (Hos : Order.session_id order = Some s).
  { rewrite Hfields. simpl. unfold Orders.getSessionId. by rewrite Hs. }
  assert (Hl : Orders.newest_first
                 (filter (fun o => Order.session_id o = Some s)
                    (orders (db (snd (Orders.createOrder items od w))))) ≡ₚ
               order :: filter (fun o => Order.session_id o = Some s) (orders (db w))).
  { rewrite newest_first_perm, Ho, filter_app.
    rewrite (filter_cons_True _ order []) by done. rewrite filter_nil.
    by rewrite Permutation_app_comm. }
  exists order. eexists. split; [exact Hr|]. split.
  - rewrite getOrders_carried by (by rewrite Hf).
    unfold Orders.getSessionId. rewrite Hsc. reflexivity.
  - split; [|exact Hl]. rewrite Hl. by left.
Qed.

Lemma createOrder_then_getOrders_witness :
  no_fault 4 (faults archive_world) ∧
  truthy (getItem "session_id" archive_world) = Some "S" ∧
  ∃ order l,
    fst (Orders.createOrder cart_S checkout_form archive_world) = Returned order ∧
    fst (Orders.getOrders (snd (Orders.createOrder cart_S checkout_form archive_world))) =
      Returned l ∧
    l ≡ₚ [order; first_order].
Proof.
  split; [exact I|]. split; [reflexivity|].
  destruct (createOrder_then_getOrders cart_S checkout_form archive_world "S" I eq_refl)
    as (order & l & Hr & Hg & _ & Hp).
  exists order, l. split_and!; [exact Hr | exact Hg | exact Hp].
Defined.

(** X17. With the session identifier [s] stored and the store answering,
    a successful [createOrder] files the Order under [s] with no user id,
    status [pending] and the customer fields of the form, and empties the
    whole stored cart of [s], whether or not its rows were among the cart
    items passed; the cart rows of every other owner stay as they were. *)
Theorem createOrder_files_and_clears items od w s :
  no_fault 3 (faults w) →
  truthy (getItem "session_id" w) = Some s →
  ∃ order,
    fst (Orders.createOrder items od w) = Returned order ∧
    Order.session_id order = Some s ∧
    Order.user_id order = None ∧
    Order.status order = pending ∧
    Order.customer_name order = OrderData.customer_name od ∧
    Order.customer_email order = OrderData.customer_email od ∧
    Order.shipping_address order = OrderData.shipping_address od ∧
    cart_of_session s (cart_items (db (snd (Orders.createOrder items od w)))) = [] ∧
    filter (fun c => CartItem.session_id c ≠ Some s)
      (cart_items (db (snd (Orders.createOrder items od w)))) =
    filter (fun c => CartItem.session_id c ≠ Some s) (cart_items (db w)).
Proof.
  intros H Hs.
  destruct (createOrder_success items od w H)
    as (order & rows & sc & Hr & _ & _ & _ & Hc & _ & Hst & _ & Hfields & _).
  rewrite (Hst s Hs) in Hc.
  assert (Hsid : fst (Orders.getSessionId w) = s).
  { unfold Orders.getSessionId. by rewrite Hs. }
  exists order. split; [exact Hr|]. rewrite Hfields, Hsid. simpl. split_and!; try done.
  - rewrite Hc. unfold cart_of_session. rewrite list_filter_filter.
    apply (filter_none (fun c => CartItem.session_id c = Some s ∧
                                 CartItem.session_id c ≠ Some s)). tauto.
  - rewrite Hc. apply list_filter_filter_l. tauto.
Qed.

Lemma createOrder_files_and_clears_witness :
  no_fault 3 (faults (shop_world [])) ∧
  truthy (getItem "session_id" (shop_world [])) = Some "S" ∧
  ∃ order,
    fst (Orders.createOrder [] checkout_form (shop_world [])) = Returned order ∧
    Order.session_id order = Some "S" ∧
    cart_of_session "S"
      (cart_items (db (snd (Orders.createOrder [] checkout_form (shop_world []))))) = [].
Proof.
  split; [exact I|]. split; [reflexivity|].
  destruct (createOrder_files_and_clears [] checkout_form (shop_world []) "S" I eq_refl)
    as (order & Hr & Hs & _ & _ & _ & _ & _ & Hc & _).
  exists order. split_and!; [exact Hr | exact Hs | exact Hc].
Defined.

(** X18. [createOrder] has no guard against an empty cart: with the store
    answering, [createOrder([], form)] returns an Order with total 0,
    adds it to [orders] and adds no order item. *)
Theorem createOrder_empty_cart od w :
  no_fault 3 (faults w) →
  ∃ order,
    fst (Orders.createOrder [] od w) = Returned order ∧
    Order.total_amount order = 0 ∧
    orders (db (snd (Orders.createOrder [] od w))) = orders (db w) ++ [order] ∧
    order_items (db (snd (Orders.createOrder [] od w))) = order_items (db w).
Proof.
  intros H.
  destruct (createOrder_success [] od w H)
    as (order & rows & sc & Hr & Ho & Hi & _ & _ & _ & _ & _ & Hfields & Hrows).
  exists order. split_and!; try done.
  - by rewrite Hfields.
  - destruct rows; [by rewrite app_nil_r in Hi | discriminate Hrows].
Qed.

Lemma createOrder_empty_cart_witness :
  no_fault 3 (faults fresh_world) ∧
  ∃ order,
    fst (Orders.createOrder [] checkout_form fresh_world) = Returned order ∧
    Order.total_amount order = 0 ∧
    order_items (db (snd (Orders.createOrder [] checkout_form fresh_world))) = [].
Proof.
  split; [exact I|].
  destruct (createOrder_empty_cart checkout_form fresh_world I) as (order & Hr & Ht & _ & Hi).
  exists order. split_and!; [exact Hr | exact Ht | exact Hi].
Defined.

Lemma reprice_same w : reprice (products (db w)) w = w.
Proof. by destruct w as [ls wr en dr cl [ps cs os ois] fs]. Qed.

(** X19. [createOrder] never writes to the catalogue: whatever the cart
    items, the form and the schedule, and whether it returns or raises,
    the [products] table, stock included, is afterwards what it was. *)
Theorem createOrder_leaves_products items od w :
  products (db (snd (Orders.createOrder items od w))) = products (db w).
Proof.
  pose proof (blind_createOrder items od (products (db w)) w) as H.
  rewrite reprice_same in H.
  apply (f_equal snd) in H. simpl in H. rewrite H. reflexivity.
Qed.

(** *** The application shell *)

Lemma getCartItems_failed w e :
  fault_at 0 e (faults w) → fst (Cart.getCartItems w) = Thrown (StoreError e).
Proof.
  intros H. destruct (cart_getSessionId_frame w) as [_ Hfs].
  unfold Cart.getCartItems, bind, sync.
  destruct (Cart.getSessionId w) as [s w1]. simpl in *.
  by rewrite (request_failed _ w1 e) by (by rewrite Hfs).
Qed.

Lemma addToCart_carried p q w :
  no_fault 2 (faults w) →
  fst (Cart.addToCart p q w) = Returned tt ∧
  faults (snd (Cart.addToCart p q w)) = drop 2 (faults w) ∧
  truthy (getItem "session_id" (snd (Cart.addToCart p q w))) =
    Some (fst (Cart.getSessionId w)).
Proof.
  destruct w as [ls wr en dr cl d fs].
  unfold_ops. unfold Cart.select_line, getItem. simpl.
  destruct (truthy (ls !! "session_id")) as [s|] eqn:Es; simpl; intros Hf.
  all: destruct fs as [|[?|] [|[?|] ?]]; simpl in Hf; try tauto; simpl.
  all: destruct (maybeSingle _) as [[?|] ?]; simpl; split_and!; try done.
  all: by rewrite lookup_insert_eq; apply truthy_uuid.
Qed.

Lemma updateCartItemQuantity_carried id q w :
  no_fault 1 (faults w) →
  fst (Cart.updateCartItemQuantity id q w) = Returned tt ∧
  cart_items (db (snd (Cart.updateCartItemQuantity id q w))) =
    (if decide (q <= 0) then filter (fun c => CartItem.id c ≠ id) (cart_items (db w))
     else map (requantify id q) (cart_items (db w))) ∧
  faults (snd (Cart.updateCartItemQuantity id q w)) = tail (faults w) ∧
  localStorage (snd (Cart.updateCartItemQuantity id q w)) = localStorage w ∧
  products (db (snd (Cart.updateCartItemQuantity id q w))) = products (db w).
Proof.
  intros Hf. unfold Cart.updateCartItemQuantity. destruct (decide (q <= 0)).
  - rewrite bind_unit. by apply removeFromCart_carried.
  - unfold bind. rewrite request_carried by done. simpl.
    destruct w as [ls wr en dr cl d fs]. by destruct fs.
Qed.

Lemma handleCheckout_world od st w :
  snd (App.handleCheckout od st w) = snd (Orders.createOrder (App.cartItems st) od w).
Proof.
  unfold App.handleCheckout. by destruct (Orders.createOrder _ _ _) as [[?|?] ?].
Qed.

(** X20. The amount shown to the customer is the amount charged: the
    total of the cart panel and the total passed to the checkout form are
    the same number, and when [handleCheckout] gets both inserts through,
    the Order it stores carries exactly that [total_amount]. *)
Theorem displayed_total_is_order_total od st w :
  no_fault 2 (faults w) →
  CartPanel.total (App.cartItems st) = App.cartTotal st ∧
  ∃ order,
    orders (db (snd (App.handleCheckout od st w))) = orders (db w) ++ [order] ∧
    Order.total_amount order = App.cartTotal st.
Proof.
  intros H. split; [reflexivity|]. rewrite handleCheckout_world.
  destruct (createOrder_inserts (App.cartItems st) od w H)
    as (order & rows & Ho & _ & Ht & _).
  exists order. split; [exact Ho|]. rewrite Ht. symmetry. apply total_amount_eq.
Qed.

Lemma displayed_total_is_order_total_witness :
  no_fault 2 (faults (shop_world [])) ∧
  ∃ order,
    orders (db (snd (App.handleCheckout checkout_form
                       checkout_page
                       (shop_world [])))) = [order] ∧
    Order.total_amount order = 3500.
Proof.
  split; [exact I|].
  destruct (displayed_total_is_order_total checkout_form
              checkout_page (shop_world []) I)
    as (_ & order & Ho & Ht).
  exists order. split; [exact Ho | exact Ht].
Defined.

(** X21. A checkout that goes through: with the three requests carried
    out, [handleCheckout] empties the cart on the page (its count and its
    total drop to 0), closes the cart panel and the checkout form, shows
    the success message and logs no error; the catalogue on the page is
    untouched. *)
Theorem handleCheckout_success od st w :
  no_fault 3 (faults w) →
  App.cartItems (fst (App.handleCheckout od st w)) = [] ∧
  App.isCartOpen (fst (App.handleCheckout od st w)) = false ∧
  App.isCheckoutOpen (fst (App.handleCheckout od st w)) = false ∧
  App.alerts (fst (App.handleCheckout od st w)) =
    App.alerts st ++ ["Order placed successfully!"] ∧
  App.errors (fst (App.handleCheckout od st w)) = App.errors st ∧
  App.products (fst (App.handleCheckout od st w)) = App.products st ∧
  App.categories (fst (App.handleCheckout od st w)) = App.categories st ∧
  App.cartCount (fst (App.handleCheckout od st w)) = 0 ∧
  App.cartTotal (fst (App.handleCheckout od st w)) = 0.
Proof.
  intros H.
  destruct (createOrder_success (App.cartItems st) od w H) as (order & rows & sc & Hr & _).
  unfold App.handleCheckout.
  destruct (Orders.createOrder _ _ _) as [[o|x] w']; simpl in *; [done | discriminate Hr].
Qed.

Lemma handleCheckout_success_witness :
  no_fault 3 (faults (shop_world [])) ∧
  App.cartItems (fst (App.handleCheckout checkout_form
                        checkout_page
                        (shop_world []))) = [] ∧
  App.alerts (fst (App.handleCheckout checkout_form
                     checkout_page
                     (shop_world []))) = ["Order placed successfully!"].
Proof.
  split; [exact I|].
  destruct (handleCheckout_success checkout_form
              checkout_page (shop_world []) I)
    as (Hc & _ & _ & Ha & _).
  split; [exact Hc | exact Ha].
Defined.

Lemma createOrder_failed items od w e :
  fault_at 0 e (faults w) ∨ fault_at 1 e (faults w) ∨ fault_at 2 e (faults w) →
  fst (Orders.createOrder items od w) = Thrown (StoreError e).
Proof.
  intros [H|[H|H]].
  - destruct (orders_getSessionId_frame w) as (_ & Hfs & _).
    unfold Orders.createOrder, bind, sync.
    destruct (Orders.getSessionId w) as [s w1]. simpl in *.
    by rewrite (request_failed _ w1 e) by (by rewrite Hfs).
  - apply (fault_at_S 0) in H as [H1 H2].
    destruct (orders_getSessionId_frame w) as (_ & Hfs & _).
    unfold Orders.createOrder, bind, sync.
    destruct (Orders.getSessionId w) as [s w1]. simpl in *.
    rewrite request_carried by (by rewrite Hfs). simpl.
    by rewrite (request_failed _ _ e)
      by (change (fault_at 0 e (tail (faults w1))); by rewrite Hfs).
  - assert (H2 : no_fault 2 (faults w)).
    { destruct (faults w) as [|[?|] [|[?|] ?]]; simpl in *; tauto. }
    destruct (createOrder_inserts items od w H2) as (? & ? & _ & _ & _ & _ & _ & _ & Hc).
    by apply Hc.
Qed.

(** X22. A checkout that fails: when any of the three requests of
    [createOrder] fails with [e], [handleCheckout] keeps the cart on the
    page and the state of both panels, logs [e] and shows the failure
    message.  This includes the failure of the last request, the cart
    clearing, after which the Order is nevertheless in the store. *)
Theorem handleCheckout_failure od st w e :
  fault_at 0 e (faults w) ∨ fault_at 1 e (faults w) ∨ fault_at 2 e (faults w) →
  App.cartItems (fst (App.handleCheckout od st w)) = App.cartItems st ∧
  App.isCartOpen (fst (App.handleCheckout od st w)) = App.isCartOpen st ∧
  App.isCheckoutOpen (fst (App.handleCheckout od st w)) = App.isCheckoutOpen st ∧
  App.alerts (fst (App.handleCheckout od st w)) = App.alerts st ++ ["Failed to place order"] ∧
  App.errors (fst (App.handleCheckout od st w)) =
    App.errors st ++ [("Error creating order:", StoreError e)] ∧
  (fault_at 2 e (faults w) →
   ∃ order, orders (db (snd (App.handleCheckout od st w))) = orders (db w) ++ [order]).
Proof.
  intros H. pose proof (createOrder_failed (App.cartItems st) od w e H) as Hx.
  split_and!.
  1-5: unfold App.handleCheckout;
       destruct (Orders.createOrder _ _ _) as [[o|x] w']; simpl in *;
       [discriminate Hx | by injection Hx as ->].
  intros H2. rewrite handleCheckout_world.
  assert (Hf : no_fault 2 (faults w)).
  { destruct (faults w) as [|[?|] [|[?|] ?]]; simpl in *; tauto. }
  destruct (createOrder_inserts (App.cartItems st) od w Hf) as (order & ? & Ho & _).
  by exists order.
Qed.

Lemma handleCheckout_failure_witness :
  (fault_at 0 network_error (faults (shop_world [None; None; Some network_error])) ∨
   fault_at 1 network_error (faults (shop_world [None; None; Some network_error])) ∨
   fault_at 2 network_error (faults (shop_world [None; None; Some network_error]))) ∧
  App.cartItems (fst (App.handleCheckout checkout_form
                        checkout_page
                        (shop_world [None; None; Some network_error]))) = cart_S ∧
  App.alerts (fst (App.handleCheckout checkout_form
                     checkout_page
                     (shop_world [None; None; Some network_error]))) =
    ["Failed to place order"] ∧
  ∃ order,
    orders (db (snd (App.handleCheckout checkout_form
                       checkout_page
                       (shop_world [None; None; Some network_error])))) = [order].
Proof.
  split; [right; right; reflexivity|].
  destruct (handleCheckout_failure checkout_form
              checkout_page
              (shop_world [None; None; Some network_error]) network_error
              (or_intror (or_intror eq_refl)))
    as (Hc & _ & _ & Ha & _ & Ho).
  split; [exact Hc|]. split; [exact Ha|]. exact (Ho eq_refl).
Defined.

(** X23. [handleAddToCart] refreshes the page from the store or leaves
    it alone.  With its three requests carried out, the cart on the page
    becomes the session's cart as stored after the add, joined with the
    live products, and nothing is reported.  When the write of
    [addToCart] or the following read fails with [e], the cart on the page
    is kept, [e] is logged and the failure message is shown. *)
Theorem handleAddToCart_refreshes_or_keeps productId st w :
  (no_fault 3 (faults w) →
   App.cartItems (fst (App.handleAddToCart productId st w)) =
     map (join_cart_product (db (snd (App.handleAddToCart productId st w))))
       (cart_of_session (fst (Cart.getSessionId w))
          (cart_items (db (snd (App.handleAddToCart productId st w))))) ∧
   App.alerts (fst (App.handleAddToCart productId st w)) = App.alerts st ∧
   App.errors (fst (App.handleAddToCart productId st w)) = App.errors st) ∧
  (∀ e, fault_at 1 e (faults w) ∨ fault_at 2 e (faults w) →
   App.cartItems (fst (App.handleAddToCart productId st w)) = App.cartItems st ∧
   App.alerts (fst (App.handleAddToCart productId st w)) =
     App.alerts st ++ ["Failed to add item to cart"] ∧
   App.errors (fst (App.handleAddToCart productId st w)) =
     App.errors st ++ [("Error adding to cart:", StoreError e)]).
Proof.
  split.
  - intros H. apply (no_fault_drop 2 1) in H as [H2 H1].
    destruct (addToCart_carried productId 1 w H2) as (Hr & Hf & Hs).
    unfold App.handleAddToCart, bind.
    destruct (Cart.addToCart productId 1 w) as [o w1]. simpl in *. subst o.
    destruct (getCartItems_carried w1) as (Hg & Hdb & _); [by rewrite Hf|].
    rewrite (cart_getSessionId_stored _ _ Hs) in Hg. simpl in Hg.
    destruct (Cart.getCartItems w1) as [[l|x] w2]; simpl in *; [|discriminate Hg].
    injection Hg as ->. by rewrite Hdb.
  - intros e [H|H].
    + destruct (addToCart_write_propagates productId 1 w e H) as [Hx _].
      unfold App.handleAddToCart, bind.
      destruct (Cart.addToCart productId 1 w) as [[[]|x] w1]; simpl in *;
        [discriminate Hx | by injection Hx as ->].
    + assert (H2 : no_fault 2 (faults w)).
      { destruct (faults w) as [|[?|] [|[?|] ?]]; simpl in *; tauto. }
      assert (H0 : fault_at 0 e (drop 2 (faults w))).
      { destruct (faults w) as [|[?|] [|[?|] ?]]; simpl in *; tauto. }
      destruct (addToCart_carried productId 1 w H2) as (Hr & Hf & _).
      unfold App.handleAddToCart, bind.
      destruct (Cart.addToCart productId 1 w) as [o w1]. simpl in *. subst o.
      pose proof (getCartItems_failed w1 e) as Hx. rewrite Hf in Hx. specialize (Hx H0).
      destruct (Cart.getCartItems w1) as [[l|x] w2]; simpl in *;
        [discriminate Hx | by injection Hx as ->].
Qed.

(** What [handleUpdateQuantity] leaves in the store and on the page when
    its two requests are carried out. *)
Lemma handleUpdateQuantity_carried id q st w :
  no_fault 2 (faults w) →
  cart_items (db (snd (App.handleUpdateQuantity id q st w))) =
    (if decide (q <= 0) then filter (fun c => CartItem.id c ≠ id) (cart_items (db w))
     else map (requantify id q) (cart_items (db w))) ∧
  ∃ s, App.cartItems (fst (App.handleUpdateQuantity id q st w)) =
         map (join_cart_product (db (snd (App.handleUpdateQuantity id q st w))))
           (cart_of_session s (cart_items (db (snd (App.handleUpdateQuantity id q st w))))).
Proof.
  intros H. apply (no_fault_drop 1 1) in H as [H1 H2].
  unfold App.handleUpdateQuantity, bind.
  destruct (updateCartItemQuantity_carried id q w H1) as (Hr & Hc & Hf & _).
  destruct (Cart.updateCartItemQuantity _ _ w) as [o w1]. simpl in *. subst o.
  destruct (getCartItems_carried w1) as (Hg & Hdb & _); [by rewrite Hf|].
  destruct (Cart.getCartItems w1) as [[l|x] w2]; simpl in *; [|discriminate Hg].
  injection Hg as ->. rewrite Hdb. split; [exact Hc|]. by eexists.
Qed.

Lemma requantify_sets id q (l : list CartItem.t) c :
  c ∈ map (requantify id q) l → CartItem.id c = id → CartItem.quantity c = q.
Proof.
  intros Hin Hid. change (map ?f ?l) with (f <$> l) in Hin.
  apply list_elem_of_fmap in Hin as (c0 & -> & _).
  unfold requantify in *. destruct (decide (CartItem.id c0 = id)); [done|]. contradiction.
Qed.

(** X24. The quantity buttons of the cart panel, wired to
    [handleUpdateQuantity], the two requests being carried out.  Minus on
    a line shown with quantity 1 (or less) removes the row from the store,
    and the refreshed cart on the page has no line with that id; minus on
    a line shown with a larger quantity stores that quantity minus one,
    and plus stores the shown quantity plus one, in every row with that
    id. *)
Theorem minus_button_removes_at_one item st w :
  no_fault 2 (faults w) →
  (CartItem.quantity item <= 1 →
   (∀ c, c ∈ cart_items (db (snd (CartPanel.minus App.handleUpdateQuantity item st w))) →
         CartItem.id c ≠ CartItem.id item) ∧
   (∀ c, c ∈ App.cartItems (fst (CartPanel.minus App.handleUpdateQuantity item st w)) →
         CartItem.id c ≠ CartItem.id item)) ∧
  (1 < CartItem.quantity item →
   ∀ c, c ∈ cart_items (db (snd (CartPanel.minus App.handleUpdateQuantity item st w))) →
        CartItem.id c = CartItem.id item →
        CartItem.quantity c = CartItem.quantity item - 1) ∧
  (0 <= CartItem.quantity item →
   ∀ c, c ∈ cart_items (db (snd (CartPanel.plus App.handleUpdateQuantity item st w))) →
        CartItem.id c = CartItem.id item →
        CartItem.quantity c = CartItem.quantity item + 1).
Proof.
  intros H. unfold CartPanel.minus, CartPanel.plus.
  destruct (handleUpdateQuantity_carried (CartItem.id item) (CartItem.quantity item - 1) st w H)
    as (Hm & s & Hpage).
  destruct (handleUpdateQuantity_carried (CartItem.id item) (CartItem.quantity item + 1) st w H)
    as (Hp & _).
  split_and!.
  - intros Hq. rewrite decide_True in Hm by lia. split.
    + intros c Hin. rewrite Hm in Hin. by apply list_elem_of_filter in Hin as [? _].
    + intros c Hin. rewrite Hpage, Hm in Hin. change (map ?f ?l) with (f <$> l) in Hin.
      apply list_elem_of_fmap in Hin as (c0 & -> & Hin). simpl.
      apply list_elem_of_filter in Hin as [_ Hin].
      by apply list_elem_of_filter in Hin as [? _].
  - intros Hq c Hin. rewrite Hm, decide_False in Hin by lia. by eapply requantify_sets.
  - intros Hq c Hin. rewrite Hp, decide_False in Hin by lia. by eapply requantify_sets.
Qed.

Lemma minus_button_removes_at_one_witness :
  no_fault 2 (faults (shop_world [])) ∧
  CartItem.quantity (set_quantity 1 line_S) <= 1 ∧
  (∀ c, c ∈ cart_items (db (snd (CartPanel.minus App.handleUpdateQuantity
                                   (set_quantity 1 line_S) cart_page (shop_world [])))) →
        CartItem.id c ≠ "c1") ∧
  App.cartItems (fst (CartPanel.minus App.handleUpdateQuantity
                        (set_quantity 1 line_S) cart_page (shop_world []))) = [].
Proof.
  split; [exact I|]. split; [simpl; lia|].
  destruct (minus_button_removes_at_one (set_quantity 1 line_S) cart_page (shop_world []) I)
    as [Hone _].
  assert (Hq : CartItem.quantity (set_quantity 1 line_S) <= 1) by (simpl; lia).
  split; [exact (proj1 (Hone Hq)) | reflexivity].
Defined.

(** X29. The Remove button of the cart panel, wired to
    [handleRemoveItem]: with the two requests carried out, the row is
    gone from the store and the refreshed cart on the page has no line
    with that id.  When the delete or the following read fails with [e],
    the cart on the page is kept and [e] is only logged: unlike a failed
    add, nothing is shown to the customer. *)
Theorem remove_button_removes_or_logs item st w :
  (no_fault 2 (faults w) →
   (∀ c, c ∈ cart_items (db (snd (CartPanel.remove App.handleRemoveItem item st w))) →
         CartItem.id c ≠ CartItem.id item) ∧
   (∀ c, c ∈ App.cartItems (fst (CartPanel.remove App.handleRemoveItem item st w)) →
         CartItem.id c ≠ CartItem.id item) ∧
   App.errors (fst (CartPanel.remove App.handleRemoveItem item st w)) = App.errors st) ∧
  (∀ e, fault_at 0 e (faults w) ∨ fault_at 1 e (faults w) →
   App.cartItems (fst (CartPanel.remove App.handleRemoveItem item st w)) = App.cartItems st ∧
   App.alerts (fst (CartPanel.remove App.handleRemoveItem item st w)) = App.alerts st ∧
   App.errors (fst (CartPanel.remove App.handleRemoveItem item st w)) =
     App.errors st ++ [("Error removing item:", StoreError e)]).
Proof.
  unfold CartPanel.remove, App.handleRemoveItem, bind. split.
  - intros H. apply (no_fault_drop 1 1) in H as [H1 H2].
    destruct (removeFromCart_carried (CartItem.id item) w H1) as (Hr & Hc & Hf & _).
    destruct (Cart.removeFromCart _ w) as [o w1]. simpl in *. subst o.
    destruct (getCartItems_carried w1) as (Hg & Hdb & _); [by rewrite Hf|].
    destruct (Cart.getCartItems w1) as [[l|x] w2]; simpl in *; [|discriminate Hg].
    injection Hg as ->. rewrite Hdb, Hc. split_and!; [| |done].
    + intros c Hin. by apply list_elem_of_filter in Hin as [? _].
    + intros c Hin. change (map ?f ?l) with (f <$> l) in Hin.
      apply list_elem_of_fmap in Hin as (c0 & -> & Hin). simpl.
      apply list_elem_of_filter in Hin as [_ Hin].
      by apply list_elem_of_filter in Hin as [? _].
  - intros e [H|H].
    + destruct (removeFromCart_propagates (CartItem.id item) w e H) as [Hx _].
      destruct (Cart.removeFromCart _ w) as [[[]|x] w1]; simpl in *;
        [discriminate Hx | by injection Hx as ->].
    + apply (fault_at_S 0) in H as [H1 H0].
      destruct (removeFromCart_carried (CartItem.id item) w H1) as (Hr & _ & Hf & _).
      destruct (Cart.removeFromCart _ w) as [o w1]. simpl in *. subst o.
      pose proof (getCartItems_failed w1 e) as Hx. rewrite Hf in Hx. specialize (Hx H0).
      destruct (Cart.getCartItems w1) as [[l|x] w2]; simpl in *;
        [discriminate Hx | by injection Hx as ->].
Qed.

(** *** The store handle *)

(** X25. [getSupabaseClient] hands out one client: a call made after
    another returns the client of the first and creates none, whatever
    the arguments; a call creates a client only when the module variable
    is still empty, and then exactly one. *)
Theorem getSupabaseClient_singleton url key url' key' v :
  Supabase.getSupabaseClient url' key' (snd (Supabase.getSupabaseClient url key v)) =
    (fst (Supabase.getSupabaseClient url key v), snd (Supabase.getSupabaseClient url key v)) ∧
  Supabase.supabaseInstance (snd (Supabase.getSupabaseClient url key v)) =
    Some (fst (Supabase.getSupabaseClient url key v)) ∧
  (Supabase.supabaseInstance v = None →
   Supabase.created (snd (Supabase.getSupabaseClient url key v)) = S (Supabase.created v)) ∧
  (∀ c, Supabase.supabaseInstance v = Some c →
   Supabase.getSupabaseClient url key v = (c, v)).
Proof.
  unfold Supabase.getSupabaseClient.
  destruct (Supabase.supabaseInstance v) as [c|] eqn:E; simpl.
  - rewrite E. split_and!; try done. by intros c' [= ->].
  - split_and!; done.
Qed.


(** *** Row-level security *)

Lemma passes_sql_or a b :
  Policy.passes (Policy.sql_or a b) = true ↔ a = Some true ∨ b = Some true.
Proof.
  destruct a as [[]|], b as [[]|]; simpl; split; try done; try tauto;
    intros [H|H]; discriminate H.
Qed.

Lemma sql_eq_true a b :
  Policy.sql_eq a b = Some true ↔ ∃ x, a = Some x ∧ b = Some x.
Proof.
  destruct a as [x|], b as [y|]; simpl; split; try done.
  - intros [= H]. apply bool_decide_eq_true in H as ->. by exists y.
  - intros (z & [= ->] & [= ->]). by rewrite bool_decide_eq_true_2.
  - intros (z & _ & H). discriminate H.
  - intros (z & H & _). discriminate H.
  - intros (z & H & _). discriminate H.
Qed.

(** X27. The policies of [cart_items] let a request select, insert,
    update or delete a row exactly when the row's session id is the
    request's [session_id] claim or the row's user id is the request's
    user; a NULL on either side never matches.  So a request without claim
    and without user is refused on every cart row, reads no order, and may
    still insert any order. *)
Theorem cart_policy_needs_matching_owner cmd rq c :
  (Policy.cart_items_allows cmd rq c = true ↔
   (∃ s, CartItem.session_id c = Some s ∧ Policy.claim_session_id rq = Some s) ∨
   (∃ u, CartItem.user_id c = Some u ∧ Policy.uid rq = Some u)) ∧
  (Policy.claim_session_id rq = None → Policy.uid rq = None →
   Policy.cart_items_allows cmd rq c = false ∧
   (∀ o, Policy.orders_allows Policy.SELECT rq o = false ∧
         Policy.orders_allows Policy.INSERT rq o = true)).
Proof.
  unfold Policy.cart_items_allows, Policy.owns_cart_item. split.
  - rewrite passes_sql_or, !sql_eq_true. done.
  - intros Hc Hu. split.
    + apply not_true_is_false. rewrite passes_sql_or, !sql_eq_true, Hc, Hu.
      intros [(s & _ & H)|(u & _ & H)]; discriminate H.
    + intros o. split; [|done]. simpl. unfold Policy.owns_order.
      apply not_true_is_false. rewrite passes_sql_or, !sql_eq_true, Hc, Hu.
      intros [(s & _ & H)|(u & _ & H)]; discriminate H.
Qed.

(** X28. An order item can be read only through its order: the policy of
    [order_items] allows a SELECT exactly when [orders] holds a row with
    the item's [order_id] that the same request may select; no policy
    allows inserting, updating or deleting an order item. *)
Theorem order_item_policy_follows_order rq d i :
  (Policy.order_items_allows Policy.SELECT rq d i = true ↔
   ∃ o, o ∈ orders d ∧ Order.id o = OrderItem.order_id i ∧
        Policy.orders_allows Policy.SELECT rq o = true) ∧
  Policy.order_items_allows Policy.INSERT rq d i = false ∧
  Policy.order_items_allows Policy.UPDATE rq d i = false ∧
  Policy.order_items_allows Policy.DELETE rq d i = false.
Proof.
  split; [|done]. simpl. rewrite existsb_exists. split.
  - intros (o & Hin & H). exists o. split; [by apply list_elem_of_In|].
    destruct (decide (Order.id o = OrderItem.order_id i)) as [E|E].
    + split; [done|]. rewrite bool_decide_eq_true_2 in H by done.
      by destruct (Policy.owns_order rq o) as [[]|].
    + rewrite bool_decide_eq_false_2 in H by done.
      by destruct (Policy.owns_order rq o) as [[]|].
  - intros (o & Hin & E & H). exists o. split; [by apply list_elem_of_In|].
    rewrite bool_decide_eq_true_2 by done.
    by destruct (Policy.owns_order rq o) as [[]|].
Qed.
